(** * Venezuelan form fields ([ve/forms.py]): a shallow embedding

    The file embeds the four validating fields of [ve/forms.py]
    ([VEZipCodeField], [VEDNIField], [VERIFField], [VEPhoneField]) as
    functions over an error monad, together with the pieces of Python and
    of the form framework they call.

    - Text is a [string] of 8-bit characters read as ASCII; characters
      above 127 are ordinary characters that are neither digits, letters
      nor white space.
    - A Python exception is a value of [exception]; a computation that may
      raise is a [result].
    - A [ValidationError] carries the key under which its message is stored
      in [error_messages] (['invalid'], ['checksum'], ...), not the
      translated text. *)

From Stdlib Require Import String Ascii ZArith List Lia Bool DecimalString.
From stdpp Require Import gmap strings.

Local Open Scope string_scope.
Local Open Scope Z_scope.

(** ** Python: exceptions and values *)

Inductive exception : Type :=
| NameError (name : string)
| TypeError
| AttributeError
| IndexError
| ValueError
| ValidationError (code : string).

Inductive result (A : Type) : Type :=
| Ok (a : A)
| Raise (e : exception).
Arguments Ok {A} a.
Arguments Raise {A} e.

(** [result] is an error monad; computations are sequenced with stdpp's
    [x ← m; k]. *)
#[global] Instance result_ret : MRet result := fun A a => Ok a.
#[global] Instance result_bind : MBind result := fun A B k m =>
  match m with
  | Ok a => k a
  | Raise e => Raise e
  end.

(** The values a field's [clean] receives and returns: [None] or text. *)
Inductive value : Type :=
| PyNone
| PyStr (s : string).

(** ** Python built-ins and text methods *)

Module Py.

Definition code (c : ascii) : nat := nat_of_ascii c.

(** [c.isdigit()] for one character. *)
Definition isdigit_char (c : ascii) : bool :=
  ((48 <=? code c) && (code c <=? 57))%nat.

(** [c.isspace()] for one character: space, tab, line feed, vertical tab,
    form feed, carriage return. *)
Definition isspace_char (c : ascii) : bool :=
  ((code c =? 32) || ((9 <=? code c) && (code c <=? 13)))%nat.

(** [c.lower()] for one character. *)
Definition lower_char (c : ascii) : ascii :=
  if ((65 <=? code c) && (code c <=? 90))%nat
  then ascii_of_nat (code c + 32)
  else c.

Fixpoint all_chars (p : ascii -> bool) (s : string) : bool :=
  match s with
  | EmptyString => true
  | String c s' => p c && all_chars p s'
  end.

(** [s.isdigit()]: every character is a digit and there is at least one. *)
Definition isdigit (s : string) : bool :=
  match s with
  | EmptyString => false
  | String _ _ => all_chars isdigit_char s
  end.

(** [s.isspace()]. *)
Definition isspace (s : string) : bool :=
  match s with
  | EmptyString => false
  | String _ _ => all_chars isspace_char s
  end.

Definition len (s : string) : nat := String.length s.

(** [s.replace(old, new)] for a one-character [old], the only form the
    module uses: every occurrence is replaced. *)
Fixpoint replace (old : ascii) (new : string) (s : string) : string :=
  match s with
  | EmptyString => EmptyString
  | String c s' =>
      if Ascii.eqb c old then new +:+ replace old new s'
      else String c (replace old new s')
  end.

(** [s[i]] for [i >= 0]. *)
Fixpoint index (s : string) (i : nat) : result ascii :=
  match s, i with
  | EmptyString, _ => Raise IndexError
  | String c _, O => Ok c
  | String _ s', S i' => index s' i'
  end.

(** [s[-1]]. *)
Fixpoint last (s : string) : result ascii :=
  match s with
  | EmptyString => Raise IndexError
  | String c EmptyString => Ok c
  | String _ s' => last s'
  end.

(** [s[:-1]]. *)
Fixpoint but_last (s : string) : string :=
  match s with
  | EmptyString => EmptyString
  | String _ EmptyString => EmptyString
  | String c s' => String c (but_last s')
  end.

(** [s[:n]] and [s[n:]] for [n >= 0]. *)
Fixpoint take (n : nat) (s : string) : string :=
  match n, s with
  | S n', String c s' => String c (take n' s')
  | _, _ => EmptyString
  end.

Fixpoint drop (n : nat) (s : string) : string :=
  match n, s with
  | S n', String _ s' => drop n' s'
  | _, _ => s
  end.

Fixpoint lstrip (s : string) : string :=
  match s with
  | EmptyString => EmptyString
  | String c s' => if isspace_char c then lstrip s' else s
  end.

Fixpoint rstrip (s : string) : string :=
  match s with
  | EmptyString => EmptyString
  | String c s' =>
      match rstrip s' with
      | EmptyString => if isspace_char c then EmptyString else String c EmptyString
      | t => String c t
      end
  end.

Definition digit_value (c : ascii) : Z := Z.of_nat (code c - 48).

Fixpoint decimal (acc : Z) (s : string) : Z :=
  match s with
  | EmptyString => acc
  | String c s' => decimal (10 * acc + digit_value c) s'
  end.

(** [int(s)] on text: white space around the literal is dropped, one sign
    is allowed, and what remains must be one or more decimal digits;
    anything else raises [ValueError]. *)
Definition int (s : string) : result Z :=
  let t := rstrip (lstrip s) in
  let '(sign, body) :=
    match t with
    | String "+" r => (1, r)
    | String "-" r => (-1, r)
    | _ => (1, t)
    end in
  if isdigit body then Ok (sign * decimal 0 body) else Raise ValueError.

(** [str(n)] for an integer. *)
Definition str (n : Z) : string := NilZero.string_of_int (Z.to_int n).

(** [[f(x) for x in xs]], stopping at the first exception. *)
Fixpoint comprehension {A B : Type} (f : A -> result B) (xs : list A)
  : result (list B) :=
  match xs with
  | [] => Ok []
  | x :: xs' =>
      y ← f x; ys ← comprehension f xs'; Ok (y :: ys)
  end.

(** [enumerate(xs)]. *)
Fixpoint enumerate_from {A : Type} (i : nat) (xs : list A) : list (nat * A) :=
  match xs with
  | [] => []
  | x :: xs' => (i, x) :: enumerate_from (S i) xs'
  end.

Definition enumerate {A : Type} (xs : list A) : list (nat * A) :=
  enumerate_from 0 xs.

(** [sum(xs)]. *)
Definition sum (xs : list Z) : Z := fold_left Z.add xs 0.

End Py.

(** [n in t] for a tuple of integers. *)
Definition in_tuple (n : nat) (t : list nat) : bool := existsb (Nat.eqb n) t.

(** [try: m except ValueError: raise e]. *)
Definition except_ValueError {A : Type} (m : result A) (e : exception)
  : result A :=
  match m with
  | Raise ValueError => Raise e
  | _ => m
  end.

(** ** Regular expressions: the fragment of [re] the patterns use *)

Module Re.

Inductive regex : Type :=
| Bol                           (* ^ *)
| Eol                           (* $ *)
| Digit                         (* \d *)
| Chr (a : ascii)               (* a literal character *)
| Set_ (cs : string)            (* [cs]: one of the listed characters *)
| Opt (r : regex)               (* r? *)
| Rep (n : nat) (r : regex)     (* r{n} *)
| Seq (r1 r2 : regex).          (* r1 r2; a group ( ) only captures *)

Fixpoint mem (c : ascii) (cs : string) : bool :=
  match cs with
  | EmptyString => false
  | String a cs' => Ascii.eqb c a || mem c cs'
  end.

(** One character of the subject against a character test. *)
Definition step (p : ascii -> bool) (pos : nat) (s : string)
  (k : nat -> string -> bool) : bool :=
  match s with
  | EmptyString => false
  | String c s' => p c && k (S pos) s'
  end.

(** [$] without [re.MULTILINE]: the end of the subject, or just before a
    line feed that ends it. *)
Definition at_end (s : string) : bool :=
  match s with
  | EmptyString => true
  | String c EmptyString => Ascii.eqb c "010"
  | _ => false
  end.

(** A backtracking matcher in continuation-passing style: [m r pos s k]
    tries [r] at offset [pos], where [s] is what is left of the subject,
    and hands the rest to [k]. *)
Fixpoint m (r : regex) (pos : nat) (s : string) (k : nat -> string -> bool)
  : bool :=
  match r with
  | Bol => Nat.eqb pos 0 && k pos s
  | Eol => at_end s && k pos s
  | Digit => step Py.isdigit_char pos s k
  | Chr a => step (fun c => Ascii.eqb c a) pos s k
  | Set_ cs => step (fun c => mem c cs) pos s k
  | Opt r' => m r' pos s k || k pos s
  | Rep n r' =>
      (fix rep (n : nat) (pos : nat) (s : string) : bool :=
         match n with
         | O => k pos s
         | S n' => m r' pos s (rep n')
         end) n pos s
  | Seq r1 r2 => m r1 pos s (fun pos' s' => m r2 pos' s' k)
  end.

Fixpoint search_from (r : regex) (pos : nat) (s : string) : bool :=
  m r pos s (fun _ _ => true)
  || match s with
     | EmptyString => false
     | String _ s' => search_from r (S pos) s'
     end.

(** [r.search(s)] as a truth value. *)
Definition search (r : regex) (s : string) : bool := search_from r 0 s.

(** [re.sub("[cs]", repl, s)]: every character of the set is replaced. *)
Fixpoint sub_set (cs : string) (repl : string) (s : string) : string :=
  match s with
  | EmptyString => EmptyString
  | String c s' =>
      if mem c cs then repl +:+ sub_set cs repl s'
      else String c (sub_set cs repl s')
  end.

End Re.

(** ** The form framework: the base classes of [django.forms.fields]

    [Field], [CharField] and [RegexField] are the framework's, not this
    module's; what is embedded here is what their constructors store and
    what their [clean] methods check. *)

Module Django.

(** [value in EMPTY_VALUES], with [EMPTY_VALUES = (None, '')]. *)
Definition in_EMPTY_VALUES (v : value) : bool :=
  match v with
  | PyNone => true
  | PyStr EmptyString => true
  | PyStr (String _ _) => false
  end.

Definition smart_unicode (v : value) : string :=
  match v with
  | PyNone => "None"
  | PyStr s => s
  end.

(** The attributes of a field instance that its [clean] reads. *)
Record field : Type := {
  required : bool;
  max_length : option nat;
  min_length : option nat;
  regex : option Re.regex
}.

Module Field.

(** [Field.__init__(self, required=True, ...)]: it has no [**kwargs], so a
    keyword it does not know is a [TypeError]. *)
Definition __init__ (kwargs : gmap string nat) (required : bool)
  : result field :=
  if decide (kwargs = ∅)
  then Ok {| required := required; max_length := None;
             min_length := None; regex := None |}
  else Raise TypeError.

Definition clean (self : field) (v : value) : result value :=
  if required self && in_EMPTY_VALUES v
  then Raise (ValidationError "required")
  else Ok v.

End Field.

Module CharField.

(** [CharField.__init__(self, max_length=None, min_length=None, *args,
    **kwargs)]. *)
Definition __init__ (kwargs : gmap string nat) (required : bool)
  : result field :=
  self ← Field.__init__
           (delete "max_length" (delete "min_length" kwargs)) required;
  Ok {| required := Django.required self;
        max_length := kwargs !! "max_length";
        min_length := kwargs !! "min_length";
        regex := regex self |}.

Definition clean (self : field) (v : value) : result value :=
  _ ← Field.clean self v;
  if in_EMPTY_VALUES v then Ok (PyStr "") else
  let value := smart_unicode v in
  let value_length := Py.len value in
  if match max_length self with
     | Some n => (n <? value_length)%nat
     | None => false
     end
  then Raise (ValidationError "max_length")
  else if match min_length self with
          | Some n => (value_length <? n)%nat
          | None => false
          end
  then Raise (ValidationError "min_length")
  else Ok (PyStr value).

End CharField.

Module RegexField.

(** [RegexField.__init__(self, regex, max_length=None, min_length=None,
    ...)]. *)
Definition __init__ (regex : Re.regex) (kwargs : gmap string nat)
  (required : bool) : result field :=
  self ← CharField.__init__ kwargs required;
  Ok {| required := Django.required self;
        max_length := max_length self;
        min_length := min_length self;
        regex := Some regex |}.

Definition clean (self : field) (v : value) : result value :=
  v ← CharField.clean self v;
  match v with
  | PyNone => Raise AttributeError
  | PyStr EmptyString => Ok v
  | PyStr s =>
      match regex self with
      | None => Raise AttributeError
      | Some r =>
          if negb (Re.search r s) then Raise (ValidationError "invalid")
          else Ok v
      end
  end.

End RegexField.

End Django.

Import Django.

(** ** The module [ve/forms.py] *)

(** The classes the module imports or defines. *)
Inductive class : Type :=
| cls_ValidationError
| cls_Select
| cls_CharField
| cls_RegexField
| cls_Field
| cls_VEZipCodeField
| cls_VEDNIField
| cls_VERIFField
| cls_VEPhoneField
| cls_VERegionsSelect
| cls_VERegionChoiceField
| cls_VEStateSelect
| cls_VEStateChoiceField
| cls_VESMunicipalitySelect
| cls_VEMunicipalityChoiceField
| cls_VEParishesSelect
| cls_VEParishesChoiceField.

Inductive binding : Type :=
| Class (c : class)
| Other.

(** The global names of the module once it is loaded: its imports (lines
    6-12) and its class statements. No builtin is called [RIFField]
    either. *)
Definition module_globals : gmap string binding :=
  list_to_map
    [ ("re", Other);
      ("ValidationError", Class cls_ValidationError);
      ("Select", Class cls_Select);
      ("CharField", Class cls_CharField);
      ("RegexField", Class cls_RegexField);
      ("Field", Class cls_Field);
      ("EMPTY_VALUES", Other);
      ("smart_unicode", Other);
      ("_", Other);
      ("VEZipCodeField", Class cls_VEZipCodeField);
      ("VEDNIField", Class cls_VEDNIField);
      ("VERIFField", Class cls_VERIFField);
      ("VEPhoneField", Class cls_VEPhoneField);
      ("VERegionsSelect", Class cls_VERegionsSelect);
      ("VERegionChoiceField", Class cls_VERegionChoiceField);
      ("VEStateSelect", Class cls_VEStateSelect);
      ("VEStateChoiceField", Class cls_VEStateChoiceField);
      ("VESMunicipalitySelect", Class cls_VESMunicipalitySelect);
      ("VEMunicipalityChoiceField", Class cls_VEMunicipalityChoiceField);
      ("VEParishesSelect", Class cls_VEParishesSelect);
      ("VEParishesChoiceField", Class cls_VEParishesChoiceField) ].

(** Evaluating a name that [super(name, self)] expects to be a class. *)
Definition resolve (name : string) : result class :=
  match module_globals !! name with
  | None => Raise (NameError name)
  | Some Other => Raise TypeError
  | Some (Class c) => Ok c
  end.

(** The base named in each class statement. *)
Definition base (c : class) : option class :=
  match c with
  | cls_VEZipCodeField | cls_VERIFField | cls_VEPhoneField => Some cls_RegexField
  | cls_VEDNIField => Some cls_CharField
  | cls_RegexField => Some cls_CharField
  | cls_CharField => Some cls_Field
  | cls_VERegionChoiceField | cls_VEStateChoiceField
  | cls_VEMunicipalityChoiceField | cls_VEParishesChoiceField => Some cls_Field
  | cls_VERegionsSelect | cls_VEStateSelect
  | cls_VESMunicipalitySelect | cls_VEParishesSelect => Some cls_Select
  | cls_ValidationError | cls_Select | cls_Field => None
  end.

(** [super(c, self).__init__(regex?, **kwargs)]. *)
Definition super_init (c : class) (regex : option Re.regex)
  (kwargs : gmap string nat) (required : bool) : result field :=
  match base c, regex with
  | Some cls_RegexField, Some r => RegexField.__init__ r kwargs required
  | Some cls_CharField, None => CharField.__init__ kwargs required
  | Some cls_Field, None => Field.__init__ kwargs required
  | _, _ => Raise TypeError
  end.

(** [super(c, self).clean(value)]. *)
Definition super_clean (c : class) (self : field) (v : value)
  : result value :=
  match base c with
  | Some cls_RegexField => RegexField.clean self v
  | Some cls_CharField => CharField.clean self v
  | Some cls_Field => Field.clean self v
  | _ => Raise AttributeError
  end.

(** *** [class VEZipCodeField(RegexField)] *)

Module VEZipCodeField.

(** [r'^\d{4}$'] *)
Definition pattern : Re.regex :=
  Re.Seq Re.Bol (Re.Seq (Re.Rep 4 Re.Digit) Re.Eol).

(** Lines 27-34. [required] stands for the caller's keyword arguments, of
    which it is the one [clean] reads. *)
Definition __init__ (required : bool) : result field :=
  c ← resolve "VEZipCodeField";
  super_init c (Some pattern)
    {[ "max_length" := 4%nat; "min_length" := 4%nat ]} required.

(** Lines 41-48: what [clean] does with the value its base class returns.
    No [return] follows the checks, so the method ends with [None]. *)
Definition checks (v : value) : result value :=
  if in_EMPTY_VALUES v then Ok (PyStr "") else
  match v with
  | PyNone => Raise AttributeError
  | PyStr value =>
      let value :=
        if negb (Py.isdigit value) then Py.replace "." "" value else value in
      if negb (Py.isdigit value) then Raise (ValidationError "invalid")
      else if negb (in_tuple (Py.len value) [4%nat])
      then Raise (ValidationError "max_digits")
      else Ok PyNone
  end.

(** Lines 36-48. *)
Definition clean (self : field) (v : value) : result value :=
  c ← resolve "VEZipCodeField";
  v ← super_clean c self v;
  checks v.

End VEZipCodeField.

(** *** [class VEDNIField(CharField)] *)

Module VEDNIField.

(** Lines 59-65. *)
Definition __init__ (required : bool) : result field :=
  c ← resolve "VEDNIField";
  super_init c None
    {[ "max_length" := 10%nat; "min_length" := 7%nat ]} required.

(** Lines 72-83. *)
Definition checks (v : value) : result value :=
  if in_EMPTY_VALUES v then Ok (PyStr "") else
  match v with
  | PyNone => Raise AttributeError
  | PyStr value =>
      let value :=
        if negb (Py.isdigit value) then Re.sub_set "-." "" value else value in
      _ ← except_ValueError (Py.int value) (ValidationError "invalid");
      if negb (in_tuple (Py.len value) [7%nat; 8%nat])
      then Raise (ValidationError "max_digits")
      else Ok (PyStr value)
  end.

(** Lines 67-83. *)
Definition clean (self : field) (v : value) : result value :=
  c ← resolve "VEDNIField";
  v ← super_clean c self v;
  checks v.

End VEDNIField.

(** *** [class VERIFField(RegexField)] *)

Module VERIFField.

Definition VENEZUELAN_CITIZEN : string := "1".
Definition FOREIGN_CITIZEN : string := "2".
Definition COMMERCIAL : string := "3".
Definition PERSONAL_FIRM : string := "4".
Definition GOVERMENT : string := "5".

Definition rif_first_char : gmap string string :=
  list_to_map
    [ ("v", VENEZUELAN_CITIZEN);
      ("e", FOREIGN_CITIZEN);
      ("j", COMMERCIAL);
      ("p", PERSONAL_FIRM);
      ("g", GOVERMENT) ].

(** [r'^([jJ|vV|eE|gG|pP])-?\d{8}-?\d$']: inside the brackets the bar is
    one more character of the set. *)
Definition pattern : Re.regex :=
  Re.Seq Re.Bol
   (Re.Seq (Re.Set_ "jJ|vV|eE|gG|pP")
     (Re.Seq (Re.Opt (Re.Chr "-"))
       (Re.Seq (Re.Rep 8 Re.Digit)
         (Re.Seq (Re.Opt (Re.Chr "-"))
           (Re.Seq Re.Digit Re.Eol))))).

(** Lines 112-113. The class is looked up under the name [RIFField], and
    the two length keywords are spelt [max_lenght] and [min_lenght]. *)
Definition __init__ (required : bool) : result field :=
  c ← resolve "RIFField";
  super_init c (Some pattern)
    {[ "max_lenght" := 12%nat; "min_lenght" := 10%nat ]} required.

(** Lines 125-131. *)
Definition __canon (rif : string) : result (string * string) :=
  let rif := Py.replace "-" "" rif in
  first ← Py.index rif 0;
  match rif_first_char !! String (Py.lower_char first) "" with
  | Some digit =>
      let rif := Py.replace first digit rif in
      cd ← Py.last rif;
      Ok (Py.but_last rif, String cd "")
  | None => Raise (ValidationError "invalid")
  end.

Definition multipliers : list Z := [4; 3; 2; 7; 6; 5; 4; 3; 2].

(** Lines 133-143. *)
Definition __calc_cd (rif : string) : result string :=
  products ← Py.comprehension
    (fun '(idx, m) => c ← Py.index rif idx;
                      d ← Py.int (String c "");
                      Ok (m * d))
    (Py.enumerate multipliers);
  let tmp := Py.sum products in
  Ok (Py.str (11 - tmp mod 11)).

(** Lines 145-149. *)
Definition __format (rif : string) (check_digit : option string)
  : result string :=
  '(rif, check_digit) ←
    match check_digit with
    | None => cd ← Py.last rif; Ok (Py.but_last rif, String cd "")
    | Some cd => Ok (rif, cd)
    end;
  Ok (Py.take 2 rif +:+ Py.drop 2 rif +:+ check_digit).

(** Lines 118-123: what [clean] does with the value its base class
    returns. *)
Definition checks (v : value) : result value :=
  if in_EMPTY_VALUES v then Ok (PyStr "") else
  match v with
  | PyNone => Raise AttributeError
  | PyStr value =>
      '(value, cd) ← __canon value;
      expected ← __calc_cd value;
      if negb (String.eqb expected cd)
      then Raise (ValidationError "checksum")
      else canonical ← __format value (Some cd); Ok (PyStr canonical)
  end.

(** Lines 115-123. *)
Definition clean (self : field) (v : value) : result value :=
  c ← resolve "RIFField";
  v ← super_clean c self v;
  checks v.

End VERIFField.

(** *** [class VEPhoneField(RegexField)] *)

Module VEPhoneField.

(** [r'^\d{4}-\d{7}$'] *)
Definition pattern : Re.regex :=
  Re.Seq Re.Bol
   (Re.Seq (Re.Rep 4 Re.Digit)
     (Re.Seq (Re.Chr "-") (Re.Seq (Re.Rep 7 Re.Digit) Re.Eol))).

(** Lines 161-168. *)
Definition __init__ (required : bool) : result field :=
  c ← resolve "VEPhoneField";
  super_init c (Some pattern)
    {[ "max_length" := 12%nat; "min_length" := 12%nat ]} required.

(** Lines 175-182; no [return] follows the length check. *)
Definition checks (v : value) : result value :=
  if in_EMPTY_VALUES v then Ok (PyStr "") else
  match v with
  | PyNone => Raise AttributeError
  | PyStr value =>
      if negb (in_tuple (Py.len value) [12%nat])
      then Raise (ValidationError "max_digits")
      else Ok PyNone
  end.

(** Lines 170-182. *)
Definition clean (self : field) (v : value) : result value :=
  c ← resolve "VEPhoneField";
  v ← super_clean c self v;
  checks v.

End VEPhoneField.

(** *** The choice fields: [VERegionChoiceField] and [VEStateChoiceField]

    Both are [Field]s whose widget carries the list of choices. The lists
    themselves ([REGION_CHOICES], [STATE_CHOICES]) live in the modules
    [ve_regions] and [ve_states]; here they are the argument [choices] of
    the constructor: pairs of a key and a display name. *)

(** A choice field: what [Field.__init__] stored, and
    [self.widget.choices]. *)
Record choice_field : Type := {
  as_field : field;
  widget_choices : list (string * string)
}.

Module VERegionChoiceField.

(** Lines 202-217. *)
Definition __init__ (REGION_CHOICES : list (string * string))
  (required : bool) : result choice_field :=
  c ← resolve "VERegionChoiceField";
  self ← super_init c None ∅ required;
  Ok {| as_field := self; widget_choices := REGION_CHOICES |}.

(** Lines 219-229. *)
Definition clean (self : choice_field) (v : value) : result value :=
  c ← resolve "VERegionChoiceField";
  v ← super_clean c (as_field self) v;
  let v := if in_EMPTY_VALUES v then PyStr "" else v in
  let value := smart_unicode v in
  if String.eqb value "" then Ok (PyStr value) else
  let valid_values : gset string :=
    list_to_set
      (map (fun kv => smart_unicode (PyStr (fst kv))) (widget_choices self)) in
  if negb (bool_decide (value ∈ valid_values))
  then Raise (ValidationError "invalid")
  else Ok (PyStr value).

End VERegionChoiceField.

Module VEStateChoiceField.

(** Lines 250-255. *)
Definition __init__ (STATE_CHOICES : list (string * string))
  (required : bool) : result choice_field :=
  c ← resolve "VEStateChoiceField";
  self ← super_init c None ∅ required;
  Ok {| as_field := self; widget_choices := STATE_CHOICES |}.

(** Lines 257-267. *)
Definition clean (self : choice_field) (v : value) : result value :=
  c ← resolve "VEStateChoiceField";
  v ← super_clean c (as_field self) v;
  let v := if in_EMPTY_VALUES v then PyStr "" else v in
  let value := smart_unicode v in
  if String.eqb value "" then Ok (PyStr value) else
  let valid_values : gset string :=
    list_to_set
      (map (fun kv => smart_unicode (PyStr (fst kv))) (widget_choices self)) in
  if negb (bool_decide (value ∈ valid_values))
  then Raise (ValidationError "invalid")
  else Ok (PyStr value).

End VEStateChoiceField.

(** [Class(required=...).clean(value)] for a choice field. *)
Definition validate_choice
  (init : list (string * string) -> bool -> result choice_field)
  (clean : choice_field -> value -> result value)
  (choices : list (string * string)) (required : bool) (v : value)
  : result value :=
  self ← init choices required;
  clean self v.

(** [Class(required=...).clean(value)]: build the field, then validate. *)
Definition validate (init : bool -> result field)
  (clean : field -> value -> result value) (required : bool) (v : value)
  : result value :=
  self ← init required;
  clean self v.

(** ** The checksum as the specification words it *)

(** Digits of the payload as numbers. *)
Fixpoint digits_of (s : string) : list Z :=
  match s with
  | EmptyString => []
  | String c s' => Py.digit_value c :: digits_of s'
  end.

Fixpoint weighted_sum (weights digits : list Z) : Z :=
  match weights, digits with
  | w :: ws, d :: ds => w * d + weighted_sum ws ds
  | _, _ => 0
  end.

(** Weights [4,3,2,7,6,5,4,3,2] applied to the nine digits in order, the
    products summed, then [11 - (sum mod 11)]. *)
Definition spec_check_digit (payload : string) : Z :=
  11 - weighted_sum [4; 3; 2; 7; 6; 5; 4; 3; 2] (digits_of payload) mod 11.

(** A call returns instead of raising. *)
Definition succeeds {A : Type} (m : result A) : bool :=
  match m with
  | Ok _ => true
  | Raise _ => false
  end.

(** ** "Numeric" as the national-ID field tests it *)

(** [int(s)] returns, that is, it does not raise. *)
Definition int_accepts (s : string) : bool :=
  match Py.int s with
  | Ok _ => true
  | Raise _ => false
  end.

(** * Properties *)

(** ** Name resolution and construction *)

Lemma resolve_RIFField : resolve "RIFField" = Raise (NameError "RIFField").
Proof. vm_compute. reflexivity. Qed.

Lemma resolve_VEZipCodeField : resolve "VEZipCodeField" = Ok cls_VEZipCodeField.
Proof. vm_compute. reflexivity. Qed.

Lemma resolve_VEDNIField : resolve "VEDNIField" = Ok cls_VEDNIField.
Proof. vm_compute. reflexivity. Qed.

Lemma resolve_VEPhoneField : resolve "VEPhoneField" = Ok cls_VEPhoneField.
Proof. vm_compute. reflexivity. Qed.

Lemma VEZipCodeField_init (required : bool) :
  VEZipCodeField.__init__ required =
  Ok {| required := required; max_length := Some 4%nat;
        min_length := Some 4%nat; regex := Some VEZipCodeField.pattern |}.
Proof. destruct required; vm_compute; reflexivity. Qed.

Lemma VEDNIField_init (required : bool) :
  VEDNIField.__init__ required =
  Ok {| required := required; max_length := Some 10%nat;
        min_length := Some 7%nat; regex := None |}.
Proof. destruct required; vm_compute; reflexivity. Qed.

Lemma VEPhoneField_init (required : bool) :
  VEPhoneField.__init__ required =
  Ok {| required := required; max_length := Some 12%nat;
        min_length := Some 12%nat; regex := Some VEPhoneField.pattern |}.
Proof. destruct required; vm_compute; reflexivity. Qed.

(** Were the class found, the misspelt keywords would still stop the
    constructor: the base classes know no [max_lenght]. *)
Lemma VERIFField_keywords_rejected (required : bool) :
  super_init cls_VERIFField (Some VERIFField.pattern)
    {[ "max_lenght" := 12%nat; "min_lenght" := 10%nat ]} required
  = Raise TypeError.
Proof. destruct required; vm_compute; reflexivity. Qed.

(** C8: constructing the RIF field raises [NameError], and so does its
    [clean]: both look up the name [RIFField], which the module never
    binds (the class is bound as [VERIFField]); no instance is ever
    returned by the constructor and no call of [clean] gets past the
    lookup. *)
Theorem VERIFField_raises_NameError :
  module_globals !! "RIFField" = None
  /\ module_globals !! "VERIFField" = Some (Class cls_VERIFField)
  /\ (forall required,
        VERIFField.__init__ required = Raise (NameError "RIFField"))
  /\ (forall required self, VERIFField.__init__ required <> Ok self)
  /\ (forall self v, VERIFField.clean self v = Raise (NameError "RIFField"))
  /\ (forall required v,
        validate VERIFField.__init__ VERIFField.clean required v
        = Raise (NameError "RIFField")).
Proof.
  assert (Hinit : forall required,
             VERIFField.__init__ required = Raise (NameError "RIFField")).
  { intros required. unfold VERIFField.__init__.
    rewrite resolve_RIFField. reflexivity. }
  split; [vm_compute; reflexivity |].
  split; [vm_compute; reflexivity |].
  split; [exact Hinit |].
  split; [| split].
  - intros required self H. rewrite Hinit in H. discriminate H.
  - intros self v. unfold VERIFField.clean.
    rewrite resolve_RIFField. reflexivity.
  - intros required v. unfold validate. rewrite Hinit. reflexivity.
Qed.

(** ** Regular expressions *)

Lemma search_from_Bol (r : Re.regex) (pos : nat) (s : string) :
  Re.search_from (Re.Seq Re.Bol r) (S pos) s = false.
Proof.
  revert pos. induction s as [|c s IH]; intros pos;
    cbn [Re.search_from Re.m].
  - reflexivity.
  - rewrite IH. reflexivity.
Qed.

(** A pattern that starts with [^] can only match at offset 0. *)
Lemma search_anchored (r : Re.regex) (s : string) :
  Re.search (Re.Seq Re.Bol r) s = Re.m r 0 s (fun _ _ => true).
Proof.
  unfold Re.search.
  destruct s as [|c s]; cbn [Re.search_from Re.m Nat.eqb andb].
  - apply orb_false_r.
  - rewrite search_from_Bol. apply orb_false_r.
Qed.

Lemma step_inv (p : ascii -> bool) (pos : nat) (s : string)
  (k : nat -> string -> bool) :
  Re.step p pos s k = true ->
  exists c s', s = String c s' /\ p c = true /\ k (S pos) s' = true.
Proof.
  destruct s as [|c s']; cbn [Re.step]; [discriminate|].
  intros H. apply andb_prop in H. destruct H as [Hc Hk].
  exists c, s'. auto.
Qed.

Lemma at_end_inv (s : string) :
  Re.at_end s = true -> s = "" \/ s = String "010" "".
Proof.
  destruct s as [|c [|c' s']]; cbn [Re.at_end]; try discriminate; auto.
  intros H. apply Ascii.eqb_eq in H. subst c. auto.
Qed.

(** Reads a successful match backwards: what each step consumed. *)
Ltac invert_match :=
  repeat match goal with
    | H : (_ || _)%bool = true |- _ =>
        apply orb_prop in H; destruct H as [H | H]
    | H : (_ && _)%bool = true |- _ =>
        apply andb_prop in H; let H' := fresh "H" in destruct H as [H H']
    | H : Re.step _ _ _ _ = true |- _ =>
        let c := fresh "c" in let s := fresh "s" in let Hc := fresh "Hc" in
        apply step_inv in H; destruct H as (c & s & -> & Hc & H);
        cbv beta in H
    | H : Re.at_end _ = true |- _ =>
        apply at_end_inv in H; destruct H as [-> | ->]
    | H : Ascii.eqb _ _ = true |- _ => apply Ascii.eqb_eq in H; subst
    end.

(** ** Text *)

Lemma append_nil_l (s : string) : "" +:+ s = s.
Proof. reflexivity. Qed.

Lemma append_cons (c : ascii) (s t : string) :
  String c s +:+ t = String c (s +:+ t).
Proof. reflexivity. Qed.

Lemma digit_eqb_other (c a : ascii) :
  Py.isdigit_char c = true -> Py.isdigit_char a = false ->
  Ascii.eqb c a = false.
Proof.
  intros Hc Ha. destruct (Ascii.eqb c a) eqn:E; [|reflexivity].
  apply Ascii.eqb_eq in E. subst a. rewrite Hc in Ha. discriminate Ha.
Qed.

Lemma replace_skip (old : ascii) (new : string) (c : ascii) (s : string) :
  Ascii.eqb c old = false ->
  Py.replace old new (String c s) = String c (Py.replace old new s).
Proof. intros H. cbn [Py.replace]. rewrite H. reflexivity. Qed.

Lemma replace_hit (old : ascii) (new s : string) :
  Py.replace old new (String old s) = new +:+ Py.replace old new s.
Proof. cbn [Py.replace]. rewrite Ascii.eqb_refl. reflexivity. Qed.

Lemma replace_absent (p : ascii -> bool) (old : ascii) (new s : string) :
  (forall c, p c = true -> Ascii.eqb c old = false) ->
  Py.all_chars p s = true -> Py.replace old new s = s.
Proof.
  intros Hp. induction s as [|c s IH]; cbn [Py.all_chars Py.replace].
  - reflexivity.
  - intros H. apply andb_prop in H. destruct H as [Hc Hs].
    rewrite (Hp c Hc), (IH Hs). reflexivity.
Qed.

(** Removing the hyphens from digits and hyphens leaves digits. *)
Lemma replace_hyphens_digits (s : string) :
  Py.all_chars (fun c => Py.isdigit_char c || Ascii.eqb c "-") s = true ->
  Py.all_chars Py.isdigit_char (Py.replace "-" "" s) = true.
Proof.
  induction s as [|c s IH]; cbn [Py.all_chars Py.replace]; [reflexivity|].
  intros H. apply andb_prop in H. destruct H as [Hc Hs].
  destruct (Ascii.eqb c "-") eqn:E.
  - rewrite append_nil_l. exact (IH Hs).
  - rewrite orb_false_r in Hc. cbn [Py.all_chars].
    rewrite Hc, (IH Hs). reflexivity.
Qed.

Ltac digits_done :=
  cbn [Py.all_chars];
  repeat match goal with
    | H : Py.isdigit_char ?c = true |- context [Py.isdigit_char ?c] =>
        rewrite H
    end; reflexivity.

Ltac hyphens_gone :=
  repeat first
    [ rewrite replace_hit, append_nil_l
    | rewrite replace_skip
        by first [ reflexivity
                 | apply digit_eqb_other; [assumption | reflexivity] ] ];
  cbn [Py.replace]; reflexivity.

(** ** The checksum engine *)

Lemma int_digit_char (c : ascii) :
  Py.isdigit_char c = true -> Py.int (String c "") = Ok (Py.digit_value c).
Proof.
  destruct c as [[] [] [] [] [] [] [] []]; intros H;
    try discriminate H; vm_compute; reflexivity.
Qed.

Lemma digit_value_range (c : ascii) :
  Py.isdigit_char c = true -> 0 <= Py.digit_value c <= 9.
Proof.
  destruct c as [[] [] [] [] [] [] [] []]; intros H;
    try discriminate H; vm_compute; split; discriminate.
Qed.

(** The products of [__calc_cd] on nine digits, summed, are the weighted
    sum of the specification. *)
Lemma calc_cd_digits (c1 c2 c3 c4 c5 c6 c7 c8 c9 : ascii) (rest : string) :
  let payload :=
    String c1 (String c2 (String c3 (String c4 (String c5
      (String c6 (String c7 (String c8 (String c9 rest)))))))) in
  Py.all_chars Py.isdigit_char (Py.take 9 payload) = true ->
  VERIFField.__calc_cd payload
  = Ok (Py.str (11 - weighted_sum VERIFField.multipliers
                       (digits_of (Py.take 9 payload)) mod 11)).
Proof.
  intros payload Hd. subst payload.
  cbn [Py.take Py.all_chars] in Hd.
  repeat (apply andb_prop in Hd; destruct Hd as [? Hd]).
  unfold VERIFField.__calc_cd, VERIFField.multipliers, Py.enumerate.
  cbn [Py.enumerate_from Py.comprehension Py.index mbind result_bind].
  rewrite !int_digit_char by assumption.
  cbn [mbind result_bind mret result_ret].
  unfold Py.sum.
  cbn [fold_left Py.take digits_of weighted_sum].
  do 4 f_equal. ring.
Qed.

Lemma calc_cd_nine_digits (payload : string) :
  Py.len payload = 9%nat ->
  Py.all_chars Py.isdigit_char payload = true ->
  VERIFField.__calc_cd payload = Ok (Py.str (spec_check_digit payload)).
Proof.
  intros Hlen Hd.
  destruct payload
    as [|c1 [|c2 [|c3 [|c4 [|c5 [|c6 [|c7 [|c8 [|c9 [|c10 s]]]]]]]]]];
    try discriminate Hlen.
  apply (calc_cd_digits c1 c2 c3 c4 c5 c6 c7 c8 c9 ""). exact Hd.
Qed.

(** C6: on every nine-digit payload [__calc_cd] computes the sum of
    weight[i] * digit[i] for the weights 4,3,2,7,6,5,4,3,2 in order, then
    11 - (sum mod 11), and returns that number (as its decimal text). *)
Theorem calc_cd_is_weighted_checksum (payload : string) :
  Py.len payload = 9%nat ->
  Py.all_chars Py.isdigit_char payload = true ->
  VERIFField.__calc_cd payload = Ok (Py.str (spec_check_digit payload)).
Proof. exact (calc_cd_nine_digits payload). Qed.

Lemma calc_cd_is_weighted_checksum_witness :
  Py.len "112345678" = 9%nat
  /\ Py.all_chars Py.isdigit_char "112345678" = true
  /\ VERIFField.__calc_cd "112345678"
     = Ok (Py.str (spec_check_digit "112345678")).
Proof.
  split; [reflexivity | split; [reflexivity |]].
  apply (calc_cd_is_weighted_checksum "112345678"); reflexivity.
Defined.

(** C2: the payload 100100000 (category digit 1, identification number
    00100000) has weighted sum 11, and [__calc_cd] answers the two
    characters 11, not a digit 0-9. *)
Theorem calc_cd_100100000 :
  Py.len "100100000" = 9%nat
  /\ Py.all_chars Py.isdigit_char "100100000" = true
  /\ weighted_sum VERIFField.multipliers (digits_of "100100000") = 11
  /\ VERIFField.__calc_cd "100100000" = Ok "11".
Proof. split; [| split; [| split]]; vm_compute; reflexivity. Qed.

(** The number [__calc_cd] prints is between 1 and 11, never 0. *)
Lemma calc_cd_range (payload : string) :
  1 <= spec_check_digit payload <= 11.
Proof.
  unfold spec_check_digit.
  pose proof (Z.mod_pos_bound
    (weighted_sum [4; 3; 2; 7; 6; 5; 4; 3; 2] (digits_of payload)) 11).
  lia.
Qed.

(** ** Canonical form *)

(** The check digit [__canon] hands over is one character, and an empty
    value never gets through it. *)
Lemma canon_cd_one_char (rif payload cd : string) :
  VERIFField.__canon rif = Ok (payload, cd) ->
  rif <> "" /\ exists c, cd = String c "".
Proof.
  unfold VERIFField.__canon. intros H. split.
  - intros ->. cbn in H. discriminate H.
  - destruct (Py.index (Py.replace "-" "" rif) 0) as [first|e];
      cbn [mbind result_bind] in H; [|discriminate H].
    destruct (VERIFField.rif_first_char !! String (Py.lower_char first) "")
      as [digit|]; [|discriminate H].
    destruct (Py.last (Py.replace first digit (Py.replace "-" "" rif)))
      as [c|e]; cbn [mbind result_bind] in H; [|discriminate H].
    injection H as _ <-. exists c. reflexivity.
Qed.

(** [__canon] on a value whose hyphen-free form is a category letter
    followed by digits: the letter becomes its digit and the last
    character is split off. *)
Lemma canon_of (rif : string) (l : ascii) (body digit : string) :
  Py.replace "-" "" rif = String l body ->
  VERIFField.rif_first_char !! String (Py.lower_char l) "" = Some digit ->
  Py.isdigit_char l = false ->
  Py.all_chars Py.isdigit_char body = true ->
  VERIFField.__canon rif
  = (cd ← Py.last (digit +:+ body);
     Ok (Py.but_last (digit +:+ body), String cd "")).
Proof.
  intros Hrep Hkey Hl Hbody. unfold VERIFField.__canon. rewrite Hrep.
  cbn [Py.index mbind result_bind]. rewrite Hkey.
  cbn [Py.replace]. rewrite Ascii.eqb_refl.
  rewrite (replace_absent Py.isdigit_char l digit body);
    [reflexivity | | exact Hbody].
  intros c Hc. exact (digit_eqb_other c l Hc Hl).
Qed.

Lemma category_letter (l : ascii) (digit : string) :
  VERIFField.rif_first_char !! String (Py.lower_char l) "" = Some digit ->
  Py.isdigit_char l = false /\ Ascii.eqb l "-" = false.
Proof.
  destruct l as [[] [] [] [] [] [] [] []]; intros H;
    vm_compute in H; try discriminate H; split; reflexivity.
Qed.

(** The leading letter counts without its case, whatever digits and
    hyphens follow: two values that differ only in the case of a category
    letter have the same canonical pair. *)
Lemma canon_letter_case (a b : ascii) (rest digit : string) :
  Py.lower_char a = Py.lower_char b ->
  VERIFField.rif_first_char !! String (Py.lower_char a) "" = Some digit ->
  Py.all_chars (fun c => Py.isdigit_char c || Ascii.eqb c "-") rest = true ->
  VERIFField.__canon (String a rest) = VERIFField.__canon (String b rest).
Proof.
  intros Hcase Ha Hrest.
  assert (Hb : VERIFField.rif_first_char !! String (Py.lower_char b) ""
               = Some digit) by (rewrite <- Hcase; exact Ha).
  destruct (category_letter a digit Ha) as [Hda Hha].
  destruct (category_letter b digit Hb) as [Hdb Hhb].
  pose proof (replace_hyphens_digits rest Hrest) as Hbody.
  rewrite (canon_of (String a rest) a (Py.replace "-" "" rest) digit
             (replace_skip "-" "" a rest Hha) Ha Hda Hbody).
  rewrite (canon_of (String b rest) b (Py.replace "-" "" rest) digit
             (replace_skip "-" "" b rest Hhb) Hb Hdb Hbody).
  reflexivity.
Qed.

(** What the pattern of the field accepts, [__canon] splits into nine
    digits and a check digit. Two things the pattern lets through are set
    aside: a leading bar, which is in the bracket of the pattern but is no
    category, and a line feed after the check digit, which [$] allows. *)
Lemma pattern_accepted_canon (rif : string) :
  Re.search VERIFField.pattern rif = true ->
  Py.index rif 0 <> Ok "|"%char ->
  Py.last rif <> Ok "010"%char ->
  exists payload cd,
    VERIFField.__canon rif = Ok (payload, String cd "")
    /\ Py.len payload = 9%nat
    /\ Py.all_chars Py.isdigit_char payload = true
    /\ Py.isdigit_char cd = true.
Proof.
  unfold VERIFField.pattern. rewrite search_anchored.
  cbn [Re.m]. intros H Hbar Hnl.
  apply step_inv in H. destruct H as (l & s1 & -> & Hl & H). cbv beta in H.
  cbn [Py.index] in Hbar.
  invert_match; cbn [Py.last] in Hnl; try (contradiction Hnl; reflexivity).
  all: cbn [Re.mem] in Hl; invert_match; try discriminate Hl;
       try (contradiction Hbar; reflexivity).
  all: do 2 eexists; split;
       [ etransitivity;
         [ eapply canon_of;
           [ hyphens_gone | vm_compute; reflexivity | reflexivity
           | digits_done ]
         | rewrite append_cons, append_nil_l;
           cbn [Py.last Py.but_last mbind result_bind]; reflexivity ]
       | split; [reflexivity | split; [digits_done | assumption]] ].
Qed.

(** ** The RIF checks *)

Lemma two_chars_never_one (a b c : ascii) (t : string) :
  String.eqb (String a (String b t)) (String c "") = false.
Proof. cbn [String.eqb]. destruct (Ascii.eqb a c); reflexivity. Qed.

(** C1 as stated fails: the checks do not reject v-12345678-1 with the
    checksum error, and they do not return 123456789 for v-12345678-9. *)
Lemma rif_v_12345678_claimed_outcomes_fail :
  VERIFField.checks (PyStr "v-12345678-1") <> Raise (ValidationError "checksum")
  /\ VERIFField.checks (PyStr "v-12345678-9") <> Ok (PyStr "123456789").
Proof. split; vm_compute; discriminate. Qed.

(** C1, amended: the payload of v-12345678-1 is the nine digits
    112345678 (category digit 1, then the eight identification digits);
    its weighted sum is 142, 142 mod 11 = 10 and the expected check digit
    is 11 - 10 = 1. The checks accept v-12345678-1 and return 1123456781;
    they reject v-12345678-9 with the checksum error. *)
Theorem rif_v_12345678_outcomes :
  VERIFField.__canon "v-12345678-1" = Ok ("112345678", "1")
  /\ VERIFField.__canon "v-12345678-9" = Ok ("112345678", "9")
  /\ weighted_sum VERIFField.multipliers (digits_of "112345678") = 142
  /\ 142 mod 11 = 10
  /\ VERIFField.__calc_cd "112345678" = Ok "1"
  /\ VERIFField.checks (PyStr "v-12345678-1") = Ok (PyStr "1123456781")
  /\ VERIFField.checks (PyStr "v-12345678-9")
     = Raise (ValidationError "checksum").
Proof.
  split; [| split; [| split; [| split; [| split; [| split]]]]];
    vm_compute; reflexivity.
Qed.

Lemma category_letter_in_set (a : ascii) :
  Re.mem (Py.lower_char a) "vejpg" = true ->
  Re.mem a "jJ|vV|eE|gG|pP" = true
  /\ exists digit,
       VERIFField.rif_first_char !! String (Py.lower_char a) ""
       = Some digit.
Proof.
  destruct a as [[] [] [] [] [] [] [] []]; intros H;
    try discriminate H;
    (split; [reflexivity | eexists; vm_compute; reflexivity]).
Qed.

(** C7: validation does not look at the case of the category letter. Two
    values that start with the same category letter (v, e, j, p or g) in
    either case and go on with the same digits and hyphens have the same
    canonical pair, the same outcome of the checks, the same outcome of
    the base-class validation against the pattern followed by the checks,
    and the same outcome of [clean]; v12345678-9 and V12345678-9 are such
    a pair. *)
Theorem rif_leading_letter_case (a b : ascii) (rest : string) :
  Re.mem (Py.lower_char a) "vejpg" = true ->
  Py.lower_char a = Py.lower_char b ->
  Py.all_chars (fun c => Py.isdigit_char c || Ascii.eqb c "-") rest = true ->
  VERIFField.__canon (String a rest) = VERIFField.__canon (String b rest)
  /\ VERIFField.checks (PyStr (String a rest))
     = VERIFField.checks (PyStr (String b rest))
  /\ (forall self,
        regex self = Some VERIFField.pattern ->
        (v ← RegexField.clean self (PyStr (String a rest));
         VERIFField.checks v)
        = (v ← RegexField.clean self (PyStr (String b rest));
           VERIFField.checks v))
  /\ (forall self,
        VERIFField.clean self (PyStr (String a rest))
        = VERIFField.clean self (PyStr (String b rest))).
Proof.
  intros Ha Hcase Hrest.
  assert (Hb : Re.mem (Py.lower_char b) "vejpg" = true)
    by (rewrite <- Hcase; exact Ha).
  destruct (category_letter_in_set a Ha) as [Hseta [digit Hkey]].
  destruct (category_letter_in_set b Hb) as [Hsetb _].
  pose proof (canon_letter_case a b rest digit Hcase Hkey Hrest) as Hcanon.
  assert (Hchecks : VERIFField.checks (PyStr (String a rest))
                    = VERIFField.checks (PyStr (String b rest))).
  { unfold VERIFField.checks. cbn [in_EMPTY_VALUES].
    rewrite Hcanon. reflexivity. }
  split; [exact Hcanon | split; [exact Hchecks | split]].
  - intros self Hregex.
    unfold RegexField.clean, CharField.clean, Field.clean.
    cbn [in_EMPTY_VALUES smart_unicode Py.len String.length].
    rewrite andb_false_r. cbn [mbind result_bind].
    destruct (match max_length self with
              | Some n => (n <? S (String.length rest))%nat
              | None => false
              end); [reflexivity|].
    destruct (match min_length self with
              | Some n => (S (String.length rest) <? n)%nat
              | None => false
              end); [reflexivity|].
    cbn [mbind result_bind]. rewrite Hregex.
    unfold VERIFField.pattern. rewrite !search_anchored.
    cbn [Re.m Re.step]. rewrite Hseta, Hsetb. cbn [andb].
    match goal with
    | |- context [negb ?t] => destruct t
    end; cbn [negb mbind result_bind]; [exact Hchecks | reflexivity].
  - intros self. unfold VERIFField.clean.
    rewrite resolve_RIFField. reflexivity.
Qed.

Lemma rif_leading_letter_case_witness :
  Re.mem (Py.lower_char "v") "vejpg" = true
  /\ Py.lower_char "v" = Py.lower_char "V"
  /\ Py.all_chars (fun c => Py.isdigit_char c || Ascii.eqb c "-")
       "12345678-9" = true
  /\ VERIFField.__canon "v12345678-9" = VERIFField.__canon "V12345678-9"
  /\ VERIFField.checks (PyStr "v12345678-9")
     = VERIFField.checks (PyStr "V12345678-9").
Proof.
  split; [reflexivity |]. split; [reflexivity |]. split; [reflexivity |].
  destruct (rif_leading_letter_case "v" "V" "12345678-9")
    as (Hcanon & Hchecks & _); [reflexivity | reflexivity | reflexivity |].
  split; [exact Hcanon | exact Hchecks].
Defined.

Lemma space_is_no_category (c : ascii) :
  Py.isspace_char c = true ->
  Ascii.eqb c "-" = false
  /\ VERIFField.rif_first_char !! String (Py.lower_char c) "" = None.
Proof.
  destruct c as [[] [] [] [] [] [] [] []]; intros H;
    try discriminate H; split; vm_compute; reflexivity.
Qed.

(** C3 as stated fails: one space is white space only, and the checks
    reject it as invalid instead of returning the empty result. *)
Lemma rif_blank_rejected :
  Py.isspace " " = true
  /\ VERIFField.checks (PyStr " ") = Raise (ValidationError "invalid").
Proof. split; vm_compute; reflexivity. Qed.

(** C3, amended: an empty value ([None] or the empty text) passes the
    checks with the empty text as result and no error; text made of white
    space only is not an empty value and is rejected as invalid. *)
Theorem rif_empty_and_blank (v : value) (s : string) :
  in_EMPTY_VALUES v = true ->
  Py.isspace s = true ->
  VERIFField.checks v = Ok (PyStr "")
  /\ VERIFField.checks (PyStr s) = Raise (ValidationError "invalid").
Proof.
  intros Hv Hs. split.
  - unfold VERIFField.checks. rewrite Hv. reflexivity.
  - destruct s as [|c s]; [discriminate Hs|].
    cbn [Py.isspace] in Hs.
    assert (Hrep : Py.replace "-" "" (String c s) = String c s).
    { apply (replace_absent Py.isspace_char); [|exact Hs].
      intros a Ha. apply (space_is_no_category a Ha). }
    cbn [Py.all_chars] in Hs. apply andb_prop in Hs. destruct Hs as [Hc Hs].
    unfold VERIFField.checks, VERIFField.__canon.
    cbn [in_EMPTY_VALUES]. rewrite Hrep.
    cbn [Py.index mbind result_bind].
    destruct (space_is_no_category c Hc) as [_ ->]. reflexivity.
Qed.

Lemma rif_empty_and_blank_witness :
  in_EMPTY_VALUES (PyStr "") = true
  /\ Py.isspace "  " = true
  /\ VERIFField.checks (PyStr "") = Ok (PyStr "")
  /\ VERIFField.checks (PyStr "  ") = Raise (ValidationError "invalid").
Proof.
  split; [reflexivity | split; [reflexivity |]].
  apply (rif_empty_and_blank (PyStr "") "  "); reflexivity.
Defined.

(** C9: when the nine-digit payload of a well-formed value has a weighted
    sum that is 0 or 1 modulo 11, [__calc_cd] answers the two characters
    11 or 10; the supplied check digit is one character, so the comparison
    fails and the checks raise the checksum error whatever that character
    is. *)
Theorem rif_two_character_check_digit_rejected (rif payload cd : string) :
  VERIFField.__canon rif = Ok (payload, cd) ->
  Py.len payload = 9%nat ->
  Py.all_chars Py.isdigit_char payload = true ->
  weighted_sum VERIFField.multipliers (digits_of payload) mod 11 = 0
  \/ weighted_sum VERIFField.multipliers (digits_of payload) mod 11 = 1 ->
  (VERIFField.__calc_cd payload = Ok "11"
   \/ VERIFField.__calc_cd payload = Ok "10")
  /\ Py.len cd = 1%nat
  /\ VERIFField.checks (PyStr rif) = Raise (ValidationError "checksum").
Proof.
  intros Hcanon Hlen Hd Hmod.
  pose proof (calc_cd_nine_digits payload Hlen Hd) as Hcd.
  unfold spec_check_digit in Hcd.
  change [4; 3; 2; 7; 6; 5; 4; 3; 2] with VERIFField.multipliers in Hcd.
  destruct (canon_cd_one_char rif payload cd Hcanon) as [Hne [c ->]].
  assert (Hempty : in_EMPTY_VALUES (PyStr rif) = false).
  { destruct rif; [contradiction Hne; reflexivity | reflexivity]. }
  unfold VERIFField.checks. rewrite Hempty, Hcanon.
  cbn [mbind result_bind]. rewrite Hcd.
  cbn [mbind result_bind].
  destruct Hmod as [-> | ->].
  - split; [left; reflexivity | split; [reflexivity |]].
    change (Py.str (11 - 0)) with "11".
    rewrite two_chars_never_one. reflexivity.
  - split; [right; reflexivity | split; [reflexivity |]].
    change (Py.str (11 - 1)) with "10".
    rewrite two_chars_never_one. reflexivity.
Qed.

Lemma rif_two_character_check_digit_rejected_witness :
  VERIFField.__canon "V-00100000-1" = Ok ("100100000", "1")
  /\ Py.len "100100000" = 9%nat
  /\ Py.all_chars Py.isdigit_char "100100000" = true
  /\ (weighted_sum VERIFField.multipliers (digits_of "100100000") mod 11 = 0
      \/ weighted_sum VERIFField.multipliers (digits_of "100100000") mod 11
         = 1)
  /\ (VERIFField.__calc_cd "100100000" = Ok "11"
      \/ VERIFField.__calc_cd "100100000" = Ok "10")
  /\ Py.len "1" = 1%nat
  /\ VERIFField.checks (PyStr "V-00100000-1")
     = Raise (ValidationError "checksum").
Proof.
  split; [vm_compute; reflexivity |].
  split; [reflexivity |].
  split; [reflexivity |].
  split; [left; vm_compute; reflexivity |].
  apply (rif_two_character_check_digit_rejected
           "V-00100000-1" "100100000" "1").
  - vm_compute. reflexivity.
  - reflexivity.
  - reflexivity.
  - left. vm_compute. reflexivity.
Defined.

(** ** The base classes on text *)

Lemma CharField_clean_text (self : field) (c : ascii) (s : string) :
  CharField.clean self (PyStr (String c s)) =
  if match max_length self with
     | Some n => (n <? Py.len (String c s))%nat
     | None => false
     end
  then Raise (ValidationError "max_length")
  else if match min_length self with
          | Some n => (Py.len (String c s) <? n)%nat
          | None => false
          end
  then Raise (ValidationError "min_length")
  else Ok (PyStr (String c s)).
Proof.
  unfold CharField.clean, Field.clean. cbn [in_EMPTY_VALUES].
  rewrite andb_false_r. reflexivity.
Qed.

(** On a value that is not empty the base classes either raise or hand
    the value back unchanged. *)
Lemma CharField_clean_keeps (self : field) (v r : value) :
  in_EMPTY_VALUES v = false -> CharField.clean self v = Ok r -> r = v.
Proof.
  destruct v as [|[|c s]]; try discriminate. intros _.
  rewrite CharField_clean_text.
  repeat match goal with
         | |- context [if ?b then _ else _] => destruct b
         end; intros H; try discriminate H.
  injection H as <-. reflexivity.
Qed.

Lemma RegexField_clean_keeps (self : field) (v r : value) :
  in_EMPTY_VALUES v = false -> RegexField.clean self v = Ok r -> r = v.
Proof.
  intros Hv. unfold RegexField.clean.
  destruct (CharField.clean self v) as [v'|e] eqn:Hc;
    cbn [mbind result_bind]; [|discriminate].
  apply (CharField_clean_keeps self v v' Hv) in Hc. subst v'.
  destruct v as [|[|c s]]; try discriminate.
  destruct (regex self) as [p|]; [|discriminate].
  destruct (negb (Re.search p (String c s))); intros H; [discriminate H|].
  injection H as <-. reflexivity.
Qed.

(** An empty value ([None] or the empty text) never reaches the checks of
    a field: the base class refuses it when the field is required and
    answers the empty text when it is not. *)
Lemma empty_value_outcome (required : bool) (v : value) :
  in_EMPTY_VALUES v = true ->
  let outcome :=
    if required then Raise (ValidationError "required")
    else Ok (PyStr "") in
  validate VEZipCodeField.__init__ VEZipCodeField.clean required v = outcome
  /\ validate VEDNIField.__init__ VEDNIField.clean required v = outcome
  /\ validate VEPhoneField.__init__ VEPhoneField.clean required v = outcome.
Proof.
  destruct v as [|[|c s]]; try discriminate; intros _;
    destruct required; cbv zeta; (split; [| split]);
    vm_compute; reflexivity.
Qed.

(** ** The postal code *)

Lemma zip_pattern_four (c1 c2 c3 c4 : ascii) :
  Re.search VEZipCodeField.pattern
    (String c1 (String c2 (String c3 (String c4 ""))))
  = Py.isdigit (String c1 (String c2 (String c3 (String c4 "")))).
Proof.
  unfold VEZipCodeField.pattern. rewrite search_anchored.
  cbn [Re.m Re.step Re.at_end Py.isdigit Py.all_chars].
  rewrite !andb_true_r. reflexivity.
Qed.

(** What construct-then-clean answers on text that is not empty: the
    length checks of the base class come first, then its pattern; the
    checks of the field itself find nothing left to reject. *)
Lemma zip_outcome (required : bool) (s : string) :
  s <> "" ->
  validate VEZipCodeField.__init__ VEZipCodeField.clean required (PyStr s)
  = if (4 <? Py.len s)%nat then Raise (ValidationError "max_length")
    else if (Py.len s <? 4)%nat then Raise (ValidationError "min_length")
    else if Py.isdigit s then Ok PyNone
    else Raise (ValidationError "invalid").
Proof.
  intros Hne. unfold validate. rewrite VEZipCodeField_init.
  cbn [mbind result_bind]. unfold VEZipCodeField.clean.
  rewrite resolve_VEZipCodeField. cbn [mbind result_bind].
  unfold super_clean. cbn [base]. unfold RegexField.clean.
  destruct s as [|c1 s]; [contradiction Hne; reflexivity|].
  rewrite CharField_clean_text. cbn [max_length min_length regex].
  destruct s as [|c2 [|c3 [|c4 [|c5 s]]]]; try reflexivity.
  change (4 <? Py.len (String c1 (String c2 (String c3 (String c4 "")))))%nat
    with false.
  change (Py.len (String c1 (String c2 (String c3 (String c4 "")))) <? 4)%nat
    with false.
  cbn [mbind result_bind]. rewrite zip_pattern_four.
  destruct (Py.isdigit (String c1 (String c2 (String c3 (String c4 "")))))
    eqn:Hd; cbn [negb]; [|reflexivity].
  cbn [mbind result_bind].
  unfold VEZipCodeField.checks. cbn [in_EMPTY_VALUES].
  rewrite Hd. cbn [negb]. rewrite Hd. reflexivity.
Qed.

(** C4 as stated fails: 1.0.1.0 without its periods is the four digits
    1010, yet the field rejects it, whether required or not; the length
    check of the base class sees seven characters. *)
Lemma zip_dotted_rejected :
  Py.replace "." "" "1.0.1.0" = "1010"
  /\ validate VEZipCodeField.__init__ VEZipCodeField.clean true
       (PyStr "1.0.1.0") = Raise (ValidationError "max_length")
  /\ validate VEZipCodeField.__init__ VEZipCodeField.clean false
       (PyStr "1.0.1.0") = Raise (ValidationError "max_length").
Proof. split; [| split]; vm_compute; reflexivity. Qed.

(** C4, amended: on text that is not empty the postal-code field succeeds
    if and only if the text itself is exactly four digits; periods are not
    removed before the base class checks length and pattern. Any other
    text fails with a validation error: [max_length], [min_length] or
    [invalid]. *)
Theorem zip_accepts_exactly_four_digits (required : bool) (s : string) :
  s <> "" ->
  (validate VEZipCodeField.__init__ VEZipCodeField.clean required (PyStr s)
   = Ok PyNone
   <-> Py.len s = 4%nat /\ Py.isdigit s = true)
  /\ (validate VEZipCodeField.__init__ VEZipCodeField.clean required
        (PyStr s) = Ok PyNone
      \/ exists code,
           In code ["max_length"; "min_length"; "invalid"]
           /\ validate VEZipCodeField.__init__ VEZipCodeField.clean required
                (PyStr s) = Raise (ValidationError code)).
Proof.
  intros Hne. rewrite (zip_outcome required s Hne).
  destruct (4 <? Py.len s)%nat eqn:Hmax.
  { apply Nat.ltb_lt in Hmax. split.
    - split; [discriminate | intros [Hlen _]; lia].
    - right. exists "max_length". split; [cbn; auto | reflexivity]. }
  apply Nat.ltb_ge in Hmax.
  destruct (Py.len s <? 4)%nat eqn:Hmin.
  { apply Nat.ltb_lt in Hmin. split.
    - split; [discriminate | intros [Hlen _]; lia].
    - right. exists "min_length". split; [cbn; auto | reflexivity]. }
  apply Nat.ltb_ge in Hmin.
  destruct (Py.isdigit s) eqn:Hd.
  - split; [| left; reflexivity].
    split; [intros _; split; [lia | reflexivity] | reflexivity].
  - split.
    + split; [discriminate | intros [_ H]; discriminate H].
    + right. exists "invalid". split; [cbn; auto | reflexivity].
Qed.

Lemma zip_accepts_exactly_four_digits_witness :
  "1010" <> ""
  /\ (validate VEZipCodeField.__init__ VEZipCodeField.clean true
        (PyStr "1010") = Ok PyNone
      <-> Py.len "1010" = 4%nat /\ Py.isdigit "1010" = true)
  /\ (validate VEZipCodeField.__init__ VEZipCodeField.clean true
        (PyStr "1010") = Ok PyNone
      \/ exists code,
           In code ["max_length"; "min_length"; "invalid"]
           /\ validate VEZipCodeField.__init__ VEZipCodeField.clean true
                (PyStr "1010") = Raise (ValidationError code)).
Proof.
  split; [discriminate |].
  apply (zip_accepts_exactly_four_digits true "1010"). discriminate.
Defined.

(** ** The national identity number *)

Lemma int_outcome (s : string) :
  Py.int s = Raise ValueError \/ exists n, Py.int s = Ok n.
Proof.
  unfold Py.int.
  destruct (match Py.rstrip (Py.lstrip s) with
            | String "+" r => (1, r)
            | String "-" r => (-1, r)
            | _ => (1, Py.rstrip (Py.lstrip s))
            end) as [sign body].
  destruct (Py.isdigit body); [right; eexists; reflexivity | left; reflexivity].
Qed.

Lemma digit_is_no_separator (c : ascii) :
  Py.isdigit_char c = true -> Re.mem c "-." = false.
Proof.
  destruct c as [[] [] [] [] [] [] [] []]; intros H;
    try discriminate H; vm_compute; reflexivity.
Qed.

Lemma sub_set_absent (p : ascii -> bool) (cs repl s : string) :
  (forall c, p c = true -> Re.mem c cs = false) ->
  Py.all_chars p s = true -> Re.sub_set cs repl s = s.
Proof.
  intros Hp. induction s as [|c s IH]; cbn [Py.all_chars Re.sub_set].
  - reflexivity.
  - intros H. apply andb_prop in H. destruct H as [Hc Hs].
    rewrite (Hp c Hc), (IH Hs). reflexivity.
Qed.

(** Text that is all digits holds no hyphen and no period, so whether the
    substitution of line 75 runs or not, the value that goes on is the
    text without hyphens and periods. *)
Lemma sub_set_digits (s : string) :
  Py.isdigit s = true -> Re.sub_set "-." "" s = s.
Proof.
  destruct s as [|c s]; [discriminate|]. cbn [Py.isdigit].
  apply sub_set_absent. exact digit_is_no_separator.
Qed.

Lemma dni_checks (c : ascii) (s : string) :
  VEDNIField.checks (PyStr (String c s))
  = if int_accepts (Re.sub_set "-." "" (String c s))
    then if in_tuple (Py.len (Re.sub_set "-." "" (String c s)))
              [7%nat; 8%nat]
         then Ok (PyStr (Re.sub_set "-." "" (String c s)))
         else Raise (ValidationError "max_digits")
    else Raise (ValidationError "invalid").
Proof.
  unfold VEDNIField.checks. cbn [in_EMPTY_VALUES].
  assert (Hv : (if negb (Py.isdigit (String c s))
                then Re.sub_set "-." "" (String c s) else String c s)
               = Re.sub_set "-." "" (String c s)).
  { destruct (Py.isdigit (String c s)) eqn:Hd; cbn [negb];
      [rewrite (sub_set_digits _ Hd) |]; reflexivity. }
  rewrite Hv. unfold int_accepts, except_ValueError.
  destruct (int_outcome (Re.sub_set "-." "" (String c s))) as [-> | [n ->]];
    cbn [mbind result_bind]; [reflexivity |].
  destruct (in_tuple (Py.len (Re.sub_set "-." "" (String c s)))
              [7%nat; 8%nat]); reflexivity.
Qed.

(** What construct-then-clean answers on text that is not empty. *)
Lemma dni_outcome (required : bool) (s : string) :
  s <> "" ->
  validate VEDNIField.__init__ VEDNIField.clean required (PyStr s)
  = if (10 <? Py.len s)%nat then Raise (ValidationError "max_length")
    else if (Py.len s <? 7)%nat then Raise (ValidationError "min_length")
    else if int_accepts (Re.sub_set "-." "" s)
    then if in_tuple (Py.len (Re.sub_set "-." "" s)) [7%nat; 8%nat]
         then Ok (PyStr (Re.sub_set "-." "" s))
         else Raise (ValidationError "max_digits")
    else Raise (ValidationError "invalid").
Proof.
  intros Hne. unfold validate. rewrite VEDNIField_init.
  cbn [mbind result_bind]. unfold VEDNIField.clean.
  rewrite resolve_VEDNIField. cbn [mbind result_bind].
  unfold super_clean. cbn [base].
  destruct s as [|c s]; [contradiction Hne; reflexivity|].
  rewrite CharField_clean_text. cbn [max_length min_length].
  destruct (10 <? Py.len (String c s))%nat; [reflexivity|].
  destruct (Py.len (String c s) <? 7)%nat; [reflexivity|].
  cbn [mbind result_bind]. apply dni_checks.
Qed.

Lemma in_tuple_7_8 (n : nat) :
  in_tuple n [7%nat; 8%nat] = true <-> n = 7%nat \/ n = 8%nat.
Proof.
  unfold in_tuple. cbn [existsb]. rewrite orb_false_r, orb_true_iff.
  rewrite !Nat.eqb_eq. reflexivity.
Qed.

(** C5 as stated fails: 1-2-3-4-5-6-7 without its hyphens is the seven
    digits 1234567, yet the field rejects it; the base class sees thirteen
    characters, more than the ten it allows. *)
Lemma dni_hyphenated_rejected :
  Re.sub_set "-." "" "1-2-3-4-5-6-7" = "1234567"
  /\ Py.isdigit "1234567" = true
  /\ Py.len "1234567" = 7%nat
  /\ validate VEDNIField.__init__ VEDNIField.clean true
       (PyStr "1-2-3-4-5-6-7") = Raise (ValidationError "max_length")
  /\ validate VEDNIField.__init__ VEDNIField.clean false
       (PyStr "1-2-3-4-5-6-7") = Raise (ValidationError "max_length").
Proof.
  split; [| split; [| split; [| split]]]; vm_compute; reflexivity.
Qed.

(** C5, amended: on text that is not empty the national-ID field succeeds,
    returning the text without its hyphens and periods, if and only if the
    text as typed is 7 to 10 characters long and, once hyphens and periods
    are removed, [int()] accepts it and it is 7 or 8 characters long. Any
    other text fails with a validation error: [max_length], [min_length],
    [invalid] or [max_digits]. *)
Theorem dni_accepts (required : bool) (s : string) :
  s <> "" ->
  (validate VEDNIField.__init__ VEDNIField.clean required (PyStr s)
   = Ok (PyStr (Re.sub_set "-." "" s))
   <-> (7 <= Py.len s <= 10)%nat
       /\ int_accepts (Re.sub_set "-." "" s) = true
       /\ (Py.len (Re.sub_set "-." "" s) = 7%nat
           \/ Py.len (Re.sub_set "-." "" s) = 8%nat))
  /\ (validate VEDNIField.__init__ VEDNIField.clean required (PyStr s)
      = Ok (PyStr (Re.sub_set "-." "" s))
      \/ exists code,
           In code ["max_length"; "min_length"; "invalid"; "max_digits"]
           /\ validate VEDNIField.__init__ VEDNIField.clean required
                (PyStr s) = Raise (ValidationError code)).
Proof.
  intros Hne. rewrite (dni_outcome required s Hne).
  destruct (10 <? Py.len s)%nat eqn:Hmax.
  { apply Nat.ltb_lt in Hmax. split.
    - split; [discriminate | intros [Hlen _]; lia].
    - right. exists "max_length". split; [cbn; auto | reflexivity]. }
  apply Nat.ltb_ge in Hmax.
  destruct (Py.len s <? 7)%nat eqn:Hmin.
  { apply Nat.ltb_lt in Hmin. split.
    - split; [discriminate | intros [Hlen _]; lia].
    - right. exists "min_length". split; [cbn; auto | reflexivity]. }
  apply Nat.ltb_ge in Hmin.
  destruct (int_accepts (Re.sub_set "-." "" s)) eqn:Hint.
  2:{ split.
      - split; [discriminate | intros (_ & H & _); discriminate H].
      - right. exists "invalid". split; [cbn; auto | reflexivity]. }
  destruct (in_tuple (Py.len (Re.sub_set "-." "" s)) [7%nat; 8%nat])
    eqn:Hlen.
  - apply in_tuple_7_8 in Hlen. split; [| left; reflexivity].
    split; [intros _; split; [lia | split; [reflexivity | exact Hlen]]
           | reflexivity].
  - split.
    + split; [discriminate |].
      intros (_ & _ & H). apply in_tuple_7_8 in H.
      rewrite H in Hlen. discriminate Hlen.
    + right. exists "max_digits". split; [cbn; auto | reflexivity].
Qed.

Lemma dni_accepts_witness :
  "12.345.678" <> ""
  /\ validate VEDNIField.__init__ VEDNIField.clean true (PyStr "12.345.678")
     = Ok (PyStr "12345678").
Proof.
  split; [discriminate |].
  apply (dni_accepts true "12.345.678"); [discriminate |].
  split; [cbn; lia | split; [reflexivity | right; reflexivity]].
Defined.

(** ** Fields whose [clean] ends without [return] *)

Lemma zip_checks_None (v r : value) :
  in_EMPTY_VALUES v = false -> VEZipCodeField.checks v = Ok r -> r = PyNone.
Proof.
  intros Hv. unfold VEZipCodeField.checks. rewrite Hv.
  destruct v as [|s]; [discriminate|].
  repeat match goal with
         | |- context [if ?b then _ else _] => destruct b
         end; intros H; try discriminate H; injection H as <-; reflexivity.
Qed.

Lemma phone_checks_None (v r : value) :
  in_EMPTY_VALUES v = false -> VEPhoneField.checks v = Ok r -> r = PyNone.
Proof.
  intros Hv. unfold VEPhoneField.checks. rewrite Hv.
  destruct v as [|s]; [discriminate|].
  destruct (negb (in_tuple (Py.len s) [12%nat])); intros H;
    [discriminate H | injection H as <-; reflexivity].
Qed.

Lemma zip_clean_None (self : field) (v : value) :
  in_EMPTY_VALUES v = false ->
  succeeds (VEZipCodeField.clean self v) = true ->
  VEZipCodeField.clean self v = Ok PyNone.
Proof.
  intros Hv. unfold VEZipCodeField.clean.
  rewrite resolve_VEZipCodeField. cbn [mbind result_bind].
  unfold super_clean. cbn [base].
  destruct (RegexField.clean self v) as [v'|e] eqn:Hsuper;
    cbn [mbind result_bind]; [|discriminate].
  apply (RegexField_clean_keeps self v v' Hv) in Hsuper. subst v'.
  destruct (VEZipCodeField.checks v) as [r|e] eqn:Hchecks; [|discriminate].
  intros _. rewrite (zip_checks_None v r Hv Hchecks). reflexivity.
Qed.

Lemma phone_clean_None (self : field) (v : value) :
  in_EMPTY_VALUES v = false ->
  succeeds (VEPhoneField.clean self v) = true ->
  VEPhoneField.clean self v = Ok PyNone.
Proof.
  intros Hv. unfold VEPhoneField.clean.
  rewrite resolve_VEPhoneField. cbn [mbind result_bind].
  unfold super_clean. cbn [base].
  destruct (RegexField.clean self v) as [v'|e] eqn:Hsuper;
    cbn [mbind result_bind]; [|discriminate].
  apply (RegexField_clean_keeps self v v' Hv) in Hsuper. subst v'.
  destruct (VEPhoneField.checks v) as [r|e] eqn:Hchecks; [|discriminate].
  intros _. rewrite (phone_checks_None v r Hv Hchecks). reflexivity.
Qed.

(** C10: whenever the postal-code field or the phone field accepts a value
    that is not empty, its [clean] returns [None] and not the cleaned
    text: no [return] follows the checks. *)
Theorem zip_and_phone_clean_return_None
  (zip phone : field) (code number : value) :
  in_EMPTY_VALUES code = false ->
  in_EMPTY_VALUES number = false ->
  succeeds (VEZipCodeField.clean zip code) = true ->
  succeeds (VEPhoneField.clean phone number) = true ->
  VEZipCodeField.clean zip code = Ok PyNone
  /\ VEPhoneField.clean phone number = Ok PyNone.
Proof.
  intros Hcode Hnumber Hzip Hphone. split.
  - exact (zip_clean_None zip code Hcode Hzip).
  - exact (phone_clean_None phone number Hnumber Hphone).
Qed.

Lemma zip_and_phone_clean_return_None_witness :
  VEZipCodeField.__init__ true
  = Ok {| required := true; max_length := Some 4%nat;
          min_length := Some 4%nat; regex := Some VEZipCodeField.pattern |}
  /\ VEPhoneField.__init__ true
     = Ok {| required := true; max_length := Some 12%nat;
             min_length := Some 12%nat;
             regex := Some VEPhoneField.pattern |}
  /\ VEZipCodeField.clean
       {| required := true; max_length := Some 4%nat;
          min_length := Some 4%nat; regex := Some VEZipCodeField.pattern |}
       (PyStr "1010") = Ok PyNone
  /\ VEPhoneField.clean
       {| required := true; max_length := Some 12%nat;
          min_length := Some 12%nat; regex := Some VEPhoneField.pattern |}
       (PyStr "0412-1234567") = Ok PyNone.
Proof.
  split; [vm_compute; reflexivity |].
  split; [vm_compute; reflexivity |].
  apply (zip_and_phone_clean_return_None
           {| required := true; max_length := Some 4%nat;
              min_length := Some 4%nat;
              regex := Some VEZipCodeField.pattern |}
           {| required := true; max_length := Some 12%nat;
              min_length := Some 12%nat;
              regex := Some VEPhoneField.pattern |}
           (PyStr "1010") (PyStr "0412-1234567"));
    vm_compute; reflexivity.
Defined.

(** * Further properties *)

(** ** Text, continued *)

Lemma append_nil_r (s : string) : s +:+ "" = s.
Proof.
  induction s as [|c s IH]; [reflexivity|].
  rewrite append_cons, IH. reflexivity.
Qed.

Lemma append_assoc (s t u : string) : (s +:+ t) +:+ u = s +:+ (t +:+ u).
Proof.
  induction s as [|c s IH]; [reflexivity|].
  rewrite !append_cons, IH. reflexivity.
Qed.

Lemma len_append (s t : string) :
  Py.len (s +:+ t) = (Py.len s + Py.len t)%nat.
Proof.
  unfold Py.len. induction s as [|c s IH]; [reflexivity|].
  rewrite append_cons. cbn [String.length]. rewrite IH. reflexivity.
Qed.

Lemma all_chars_append (p : ascii -> bool) (s t : string) :
  Py.all_chars p (s +:+ t) = Py.all_chars p s && Py.all_chars p t.
Proof.
  induction s as [|c s IH]; [reflexivity|].
  rewrite append_cons. cbn [Py.all_chars]. rewrite IH.
  apply andb_assoc.
Qed.

(** [s[:n] + s[n:]] is [s]. *)
Lemma take_drop (n : nat) (s : string) : Py.take n s +:+ Py.drop n s = s.
Proof.
  revert s. induction n as [|n IH]; intros s.
  - destruct s; reflexivity.
  - destruct s as [|c s]; [reflexivity|].
    cbn [Py.take Py.drop]. rewrite append_cons, IH. reflexivity.
Qed.

(** [s[:-1] + s[-1]] is [s]. *)
Lemma but_last_last (s : string) (c : ascii) :
  Py.last s = Ok c -> Py.but_last s +:+ String c "" = s.
Proof.
  induction s as [|a s IH]; cbn [Py.last Py.but_last]; [discriminate|].
  destruct s as [|b s].
  - intros H. injection H as ->. reflexivity.
  - intros H. rewrite append_cons, (IH H). reflexivity.
Qed.

Lemma last_nonempty (s : string) : s <> "" -> exists c, Py.last s = Ok c.
Proof.
  induction s as [|a s IH]; [intros H; contradiction H; reflexivity|].
  intros _. destruct s as [|b s].
  - exists a. reflexivity.
  - destruct IH as [c Hc]; [discriminate|]. exists c. exact Hc.
Qed.

(** ** The formatter *)

Lemma format_joins (rif cd : string) :
  VERIFField.__format rif (Some cd) = Ok (rif +:+ cd).
Proof.
  unfold VERIFField.__format. cbn [mbind result_bind].
  rewrite <- append_assoc, take_drop. reflexivity.
Qed.

(** X4: [__format] joins the payload and a check digit it is given into one
    text; given no check digit it takes the last character of the text as
    the check digit and joins the two again, so it returns the text
    unchanged; on the empty text without a check digit it raises
    [IndexError]. *)
Theorem format_splits_and_joins (rif : string) :
  rif <> "" ->
  VERIFField.__format rif None = Ok rif
  /\ (forall cd, VERIFField.__format rif (Some cd) = Ok (rif +:+ cd))
  /\ VERIFField.__format "" None = Raise IndexError.
Proof.
  intros Hne. split; [| split; [intros cd; apply format_joins | reflexivity]].
  destruct (last_nonempty rif Hne) as [c Hc].
  unfold VERIFField.__format. rewrite Hc. cbn [mbind result_bind].
  rewrite <- append_assoc, take_drop, (but_last_last rif c Hc). reflexivity.
Qed.

Lemma format_splits_and_joins_witness :
  "1123456781" <> ""
  /\ VERIFField.__format "1123456781" None = Ok "1123456781".
Proof.
  split; [discriminate |].
  apply (format_splits_and_joins "1123456781"). discriminate.
Defined.

(** ** The checksum engine, continued *)

Lemma calc_cd_value (rif s : string) :
  VERIFField.__calc_cd rif = Ok s ->
  exists n, 1 <= n <= 11 /\ s = Py.str n.
Proof.
  unfold VERIFField.__calc_cd.
  destruct (Py.comprehension _ _) as [products|e];
    cbn [mbind result_bind]; [|discriminate].
  intros H. injection H as <-.
  exists (11 - Py.sum products mod 11). split; [|reflexivity].
  pose proof (Z.mod_pos_bound (Py.sum products) 11). lia.
Qed.

Lemma str_1_to_11 (n : Z) :
  1 <= n <= 11 ->
  In (Py.str n) ["1"; "2"; "3"; "4"; "5"; "6"; "7"; "8"; "9"; "10"; "11"].
Proof.
  intros H.
  assert (Hn : n = 1 \/ n = 2 \/ n = 3 \/ n = 4 \/ n = 5 \/ n = 6 \/ n = 7
               \/ n = 8 \/ n = 9 \/ n = 10 \/ n = 11) by lia.
  repeat (destruct Hn as [-> | Hn]; [cbn; tauto |]).
  subst n. cbn; tauto.
Qed.

(** X5: whatever text [__calc_cd] is given, an answer it returns is one of
    the eleven texts 1, 2, ..., 11: never 0, and two characters for 10
    and 11. *)
Theorem calc_cd_answers (rif s : string) :
  VERIFField.__calc_cd rif = Ok s ->
  In s ["1"; "2"; "3"; "4"; "5"; "6"; "7"; "8"; "9"; "10"; "11"].
Proof.
  intros H. destruct (calc_cd_value rif s H) as (n & Hn & ->).
  exact (str_1_to_11 n Hn).
Qed.

Lemma calc_cd_answers_witness :
  VERIFField.__calc_cd "112345678" = Ok "1"
  /\ In "1" ["1"; "2"; "3"; "4"; "5"; "6"; "7"; "8"; "9"; "10"; "11"].
Proof.
  split; [vm_compute; reflexivity |].
  apply (calc_cd_answers "112345678" "1"). vm_compute. reflexivity.
Defined.

(** X6: [__calc_cd] reads the first nine characters only; what follows
    them changes neither its answer nor its error. *)
Theorem calc_cd_reads_nine (rif : string) :
  (9 <= Py.len rif)%nat ->
  VERIFField.__calc_cd rif = VERIFField.__calc_cd (Py.take 9 rif).
Proof.
  intros Hlen.
  destruct rif
    as [|c1 [|c2 [|c3 [|c4 [|c5 [|c6 [|c7 [|c8 [|c9 rest]]]]]]]]];
    cbn in Hlen; try lia.
  reflexivity.
Qed.

Lemma calc_cd_reads_nine_witness :
  (9 <= Py.len "1123456781")%nat
  /\ VERIFField.__calc_cd "1123456781" = VERIFField.__calc_cd "112345678".
Proof.
  split; [cbn; lia |].
  apply (calc_cd_reads_nine "1123456781"). cbn; lia.
Defined.

(** X7: on fewer than nine digits [__calc_cd] raises [IndexError], not a
    validation error. *)
Theorem calc_cd_short_payload (rif : string) :
  (Py.len rif < 9)%nat ->
  Py.all_chars Py.isdigit_char rif = true ->
  VERIFField.__calc_cd rif = Raise IndexError.
Proof.
  intros Hlen Hd.
  destruct rif
    as [|c1 [|c2 [|c3 [|c4 [|c5 [|c6 [|c7 [|c8 [|c9 rest]]]]]]]]];
    cbn in Hlen; try lia;
    cbn [Py.all_chars] in Hd;
    repeat (apply andb_prop in Hd; destruct Hd as [? Hd]);
    unfold VERIFField.__calc_cd, VERIFField.multipliers, Py.enumerate;
    cbn [Py.enumerate_from Py.comprehension Py.index mbind result_bind];
    rewrite ?int_digit_char by assumption;
    reflexivity.
Qed.

Lemma calc_cd_short_payload_witness :
  (Py.len "12345678" < 9)%nat
  /\ Py.all_chars Py.isdigit_char "12345678" = true
  /\ VERIFField.__calc_cd "12345678" = Raise IndexError.
Proof.
  split; [cbn; lia | split; [reflexivity |]].
  apply (calc_cd_short_payload "12345678"); [cbn; lia | reflexivity].
Defined.

(** ** Canonical form, continued *)

Lemma replace_all_hits (old : ascii) (s : string) :
  Py.all_chars (fun c => Ascii.eqb c old) s = true ->
  Py.replace old "" s = "".
Proof.
  induction s as [|c s IH]; cbn [Py.all_chars Py.replace]; [reflexivity|].
  intros H. apply andb_prop in H. destruct H as [Hc Hs].
  rewrite Hc, append_nil_l. exact (IH Hs).
Qed.

(** X8: a value made of hyphens only (the empty text included) has no
    first character once the hyphens are removed: [__canon] raises
    [IndexError], and so do the checks of [clean] when the value is not
    empty. *)
Theorem canon_only_hyphens (rif : string) :
  Py.all_chars (fun c => Ascii.eqb c "-") rif = true ->
  VERIFField.__canon rif = Raise IndexError
  /\ (rif <> "" -> VERIFField.checks (PyStr rif) = Raise IndexError).
Proof.
  intros H.
  assert (Hc : VERIFField.__canon rif = Raise IndexError).
  { unfold VERIFField.__canon. rewrite (replace_all_hits "-" rif H).
    reflexivity. }
  split; [exact Hc |]. intros Hne.
  unfold VERIFField.checks.
  destruct rif as [|c s]; [contradiction Hne; reflexivity|].
  cbn [in_EMPTY_VALUES]. rewrite Hc. reflexivity.
Qed.

Lemma canon_only_hyphens_witness :
  Py.all_chars (fun c => Ascii.eqb c "-") "--" = true
  /\ VERIFField.__canon "--" = Raise IndexError
  /\ ("--" <> "" -> VERIFField.checks (PyStr "--") = Raise IndexError).
Proof.
  split; [reflexivity |].
  apply (canon_only_hyphens "--"). reflexivity.
Defined.

(** What [__canon] returns, put back together. *)
Lemma canon_joined (rif payload cd : string) :
  VERIFField.__canon rif = Ok (payload, cd) ->
  exists first digit,
    Py.index (Py.replace "-" "" rif) 0 = Ok first
    /\ VERIFField.rif_first_char !! String (Py.lower_char first) ""
       = Some digit
    /\ payload +:+ cd = Py.replace first digit (Py.replace "-" "" rif).
Proof.
  unfold VERIFField.__canon. intros H.
  destruct (Py.index (Py.replace "-" "" rif) 0) as [first|e];
    cbn [mbind result_bind] in H; [|discriminate H].
  destruct (VERIFField.rif_first_char !! String (Py.lower_char first) "")
    as [digit|] eqn:Hkey; [|discriminate H].
  destruct (Py.last (Py.replace first digit (Py.replace "-" "" rif)))
    as [c|e] eqn:Hlast; cbn [mbind result_bind] in H; [|discriminate H].
  injection H as <- <-. exists first, digit.
  split; [reflexivity | split; [exact Hkey |]].
  exact (but_last_last _ c Hlast).
Qed.

(** X9: the pair [__canon] returns, joined, is the value without its
    hyphens in which every occurrence of its first character, not just the
    leading one, is replaced by the category digit. *)
Theorem canon_replaces_every_occurrence (rif payload cd : string) :
  VERIFField.__canon rif = Ok (payload, cd) ->
  exists first digit,
    Py.index (Py.replace "-" "" rif) 0 = Ok first
    /\ VERIFField.rif_first_char !! String (Py.lower_char first) ""
       = Some digit
    /\ payload +:+ cd = Py.replace first digit (Py.replace "-" "" rif).
Proof. exact (canon_joined rif payload cd). Qed.

Lemma canon_replaces_every_occurrence_witness :
  VERIFField.__canon "J-0J00J000-J" = Ok ("303003000", "3")
  /\ exists first digit,
       Py.index (Py.replace "-" "" "J-0J00J000-J") 0 = Ok first
       /\ VERIFField.rif_first_char !! String (Py.lower_char first) ""
          = Some digit
       /\ "303003000" +:+ "3"
          = Py.replace first digit (Py.replace "-" "" "J-0J00J000-J").
Proof.
  split; [vm_compute; reflexivity |].
  apply (canon_replaces_every_occurrence "J-0J00J000-J" "303003000" "3").
  vm_compute. reflexivity.
Defined.

(** X10: the case of the category letter does not matter: two values
    whose first characters are the same letter in either case, followed by
    the same digits and hyphens, have the same canonical pair and the same
    outcome of the checks. *)
Theorem canon_ignores_letter_case (a b : ascii) (rest digit : string) :
  Py.lower_char a = Py.lower_char b ->
  VERIFField.rif_first_char !! String (Py.lower_char a) "" = Some digit ->
  Py.all_chars (fun c => Py.isdigit_char c || Ascii.eqb c "-") rest = true ->
  VERIFField.__canon (String a rest) = VERIFField.__canon (String b rest)
  /\ VERIFField.checks (PyStr (String a rest))
     = VERIFField.checks (PyStr (String b rest)).
Proof.
  intros Hcase Ha Hrest.
  pose proof (canon_letter_case a b rest digit Hcase Ha Hrest) as Hc.
  split; [exact Hc |].
  unfold VERIFField.checks. cbn [in_EMPTY_VALUES]. rewrite Hc. reflexivity.
Qed.

Lemma canon_ignores_letter_case_witness :
  Py.lower_char "g" = Py.lower_char "G"
  /\ VERIFField.rif_first_char !! String (Py.lower_char "g") "" = Some "5"
  /\ VERIFField.__canon "g-20000001-0" = VERIFField.__canon "G-20000001-0"
  /\ VERIFField.checks (PyStr "g-20000001-0")
     = VERIFField.checks (PyStr "G-20000001-0").
Proof.
  split; [reflexivity |]. split; [vm_compute; reflexivity |].
  apply (canon_ignores_letter_case "g" "G" "-20000001-0" "5");
    [reflexivity | vm_compute; reflexivity | reflexivity].
Defined.

(** ** The RIF checks, continued *)

Lemma checks_accepted (rif out : string) :
  rif <> "" ->
  VERIFField.checks (PyStr rif) = Ok (PyStr out) ->
  exists payload cd,
    VERIFField.__canon rif = Ok (payload, cd)
    /\ VERIFField.__calc_cd payload = Ok cd
    /\ out = payload +:+ cd.
Proof.
  intros Hne. unfold VERIFField.checks.
  destruct rif as [|c s]; [contradiction Hne; reflexivity|].
  cbn [in_EMPTY_VALUES].
  destruct (VERIFField.__canon (String c s)) as [[payload cd]|e];
    cbn [mbind result_bind]; [|discriminate].
  destruct (VERIFField.__calc_cd payload) as [expected|e] eqn:Hcd;
    cbn [mbind result_bind]; [|discriminate].
  destruct (String.eqb expected cd) eqn:E; cbn [negb]; [|discriminate].
  apply String.eqb_eq in E. subst expected.
  rewrite format_joins. cbn [mbind result_bind].
  intros H. injection H as <-.
  exists payload, cd.
  split; [reflexivity | split; [exact Hcd | reflexivity]].
Qed.

(** X13: when the checks accept a value that is not empty, the check digit
    it carries is the one [__calc_cd] computes from its payload, and the
    result is the payload followed by that digit. *)
Theorem checks_accept_only_matching_digit (rif out : string) :
  rif <> "" ->
  VERIFField.checks (PyStr rif) = Ok (PyStr out) ->
  exists payload cd,
    VERIFField.__canon rif = Ok (payload, cd)
    /\ VERIFField.__calc_cd payload = Ok cd
    /\ out = payload +:+ cd.
Proof. exact (checks_accepted rif out). Qed.

Lemma checks_accept_only_matching_digit_witness :
  "v-12345678-1" <> ""
  /\ VERIFField.checks (PyStr "v-12345678-1") = Ok (PyStr "1123456781")
  /\ exists payload cd,
       VERIFField.__canon "v-12345678-1" = Ok (payload, cd)
       /\ VERIFField.__calc_cd payload = Ok cd
       /\ "1123456781" = payload +:+ cd.
Proof.
  split; [discriminate |]. split; [vm_compute; reflexivity |].
  apply (checks_accept_only_matching_digit "v-12345678-1" "1123456781");
    [discriminate | vm_compute; reflexivity].
Defined.

(** X14: the checks only ever accept a check digit from 1 to 9: a value
    whose check digit is 0, or any other character, is never accepted. *)
Theorem checks_accept_digits_1_to_9 (rif payload cd : string) :
  VERIFField.__canon rif = Ok (payload, cd) ->
  succeeds (VERIFField.checks (PyStr rif)) = true ->
  In cd ["1"; "2"; "3"; "4"; "5"; "6"; "7"; "8"; "9"].
Proof.
  intros Hcanon Hok.
  destruct (canon_cd_one_char rif payload cd Hcanon) as [Hne [c ->]].
  destruct (VERIFField.checks (PyStr rif)) as [[|out]|e] eqn:Hchecks;
    try discriminate Hok.
  - unfold VERIFField.checks in Hchecks.
    destruct rif as [|a s]; [contradiction Hne; reflexivity|].
    cbn [in_EMPTY_VALUES] in Hchecks. rewrite Hcanon in Hchecks.
    cbn [mbind result_bind] in Hchecks.
    destruct (VERIFField.__calc_cd payload) as [expected|e];
      cbn [mbind result_bind] in Hchecks; [|discriminate Hchecks].
    destruct (negb (String.eqb expected (String c ""))); [discriminate Hchecks|].
    rewrite format_joins in Hchecks. discriminate Hchecks.
  - destruct (checks_accepted rif out Hne Hchecks)
      as (payload' & cd' & Hcanon' & Hcd & _).
    rewrite Hcanon in Hcanon'. injection Hcanon' as <- <-.
    pose proof (calc_cd_value payload (String c "") Hcd) as (n & Hn & Hs).
    pose proof (str_1_to_11 n Hn) as Hin. rewrite <- Hs in Hin.
    cbn [In] in Hin. cbn [In].
    repeat (destruct Hin as [Hin | Hin]; [try discriminate Hin; tauto |]).
    contradiction Hin.
Qed.

Lemma checks_accept_digits_1_to_9_witness :
  VERIFField.__canon "v-12345678-1" = Ok ("112345678", "1")
  /\ succeeds (VERIFField.checks (PyStr "v-12345678-1")) = true
  /\ In "1" ["1"; "2"; "3"; "4"; "5"; "6"; "7"; "8"; "9"].
Proof.
  split; [vm_compute; reflexivity |]. split; [vm_compute; reflexivity |].
  apply (checks_accept_digits_1_to_9 "v-12345678-1" "112345678" "1");
    vm_compute; reflexivity.
Defined.

(** X12: a value the pattern of the field accepts (a leading bar and a
    line feed after the check digit set aside) is split by [__canon] into
    a nine-digit payload and a check digit, and the checks either return
    the ten digits joined or raise the checksum error; they raise nothing
    else. *)
Theorem pattern_accepted_outcome (rif : string) :
  Re.search VERIFField.pattern rif = true ->
  Py.index rif 0 <> Ok "|"%char ->
  Py.last rif <> Ok "010"%char ->
  exists payload cd,
    VERIFField.__canon rif = Ok (payload, String cd "")
    /\ Py.len payload = 9%nat
    /\ Py.all_chars Py.isdigit_char (payload +:+ String cd "") = true
    /\ (VERIFField.checks (PyStr rif) = Ok (PyStr (payload +:+ String cd ""))
        \/ VERIFField.checks (PyStr rif)
           = Raise (ValidationError "checksum")).
Proof.
  intros Hmatch Hbar Hnl.
  destruct (pattern_accepted_canon rif Hmatch Hbar Hnl)
    as (payload & cd & Hcanon & Hlen & Hd & Hcd).
  exists payload, cd.
  split; [exact Hcanon | split; [exact Hlen | split]].
  - rewrite all_chars_append, Hd. cbn [Py.all_chars]. rewrite Hcd. reflexivity.
  - destruct (canon_cd_one_char rif payload (String cd "") Hcanon) as [Hne _].
    unfold VERIFField.checks.
    destruct rif as [|a s]; [contradiction Hne; reflexivity|].
    cbn [in_EMPTY_VALUES]. rewrite Hcanon. cbn [mbind result_bind].
    rewrite (calc_cd_nine_digits payload Hlen Hd). cbn [mbind result_bind].
    destruct (String.eqb (Py.str (spec_check_digit payload)) (String cd ""));
      cbn [negb]; [left | right; reflexivity].
    rewrite format_joins. reflexivity.
Qed.

Lemma pattern_accepted_outcome_witness :
  Re.search VERIFField.pattern "j123456789" = true
  /\ Py.index "j123456789" 0 <> Ok "|"%char
  /\ Py.last "j123456789" <> Ok "010"%char
  /\ exists payload cd,
       VERIFField.__canon "j123456789" = Ok (payload, String cd "")
       /\ Py.len payload = 9%nat
       /\ Py.all_chars Py.isdigit_char (payload +:+ String cd "") = true
       /\ (VERIFField.checks (PyStr "j123456789")
           = Ok (PyStr (payload +:+ String cd ""))
           \/ VERIFField.checks (PyStr "j123456789")
              = Raise (ValidationError "checksum")).
Proof.
  split; [vm_compute; reflexivity |].
  split; [vm_compute; discriminate |].
  split; [vm_compute; discriminate |].
  apply (pattern_accepted_outcome "j123456789");
    [vm_compute; reflexivity | vm_compute; discriminate
    | vm_compute; discriminate].
Defined.

Lemma digit_is_no_category (c : ascii) :
  Py.isdigit_char c = true ->
  Ascii.eqb c "-" = false
  /\ VERIFField.rif_first_char !! String (Py.lower_char c) "" = None.
Proof.
  destruct c as [[] [] [] [] [] [] [] []]; intros H;
    try discriminate H; split; vm_compute; reflexivity.
Qed.

Lemma category_digit (l : ascii) (digit : string) :
  VERIFField.rif_first_char !! String (Py.lower_char l) "" = Some digit ->
  exists c, digit = String c "" /\ Py.isdigit_char c = true.
Proof.
  destruct l as [[] [] [] [] [] [] [] []]; intros H;
    vm_compute in H; try discriminate H;
    injection H as <-; eexists; split; reflexivity.
Qed.

Lemma leading_other_invalid (c : ascii) (rest : string) :
  Ascii.eqb c "-" = false ->
  VERIFField.rif_first_char !! String (Py.lower_char c) "" = None ->
  VERIFField.checks (PyStr (String c rest))
  = Raise (ValidationError "invalid").
Proof.
  intros Hh Hkey.
  unfold VERIFField.checks, VERIFField.__canon. cbn [in_EMPTY_VALUES].
  rewrite (replace_skip "-" "" c rest Hh).
  cbn [Py.index mbind result_bind]. rewrite Hkey. reflexivity.
Qed.

Lemma leading_digit_invalid (c : ascii) (rest : string) :
  Py.isdigit_char c = true ->
  VERIFField.checks (PyStr (String c rest))
  = Raise (ValidationError "invalid").
Proof.
  intros Hc. destruct (digit_is_no_category c Hc) as [Hh Hkey].
  exact (leading_other_invalid c rest Hh Hkey).
Qed.

(** X11: a value whose first character is not a hyphen and not one of
    v, e, j, p, g in either case is rejected as invalid, whatever
    follows. *)
Theorem checks_reject_other_leading_character (c : ascii) (rest : string) :
  Ascii.eqb c "-" = false ->
  Re.mem (Py.lower_char c) "vejpg" = false ->
  VERIFField.checks (PyStr (String c rest))
  = Raise (ValidationError "invalid").
Proof.
  intros Hh Hc. apply (leading_other_invalid c rest Hh).
  destruct c as [[] [] [] [] [] [] [] []];
    try discriminate Hc; vm_compute; reflexivity.
Qed.

Lemma checks_reject_other_leading_character_witness :
  Ascii.eqb "x" "-" = false
  /\ Re.mem (Py.lower_char "x") "vejpg" = false
  /\ VERIFField.checks (PyStr "x12345678-9")
     = Raise (ValidationError "invalid").
Proof.
  split; [reflexivity | split; [reflexivity |]].
  apply (checks_reject_other_leading_character "x" "12345678-9");
    reflexivity.
Defined.

(** X15: what the checks return is not a value they accept: the result
    starts with the category digit, not with a category letter, and is
    rejected as invalid when validated again. *)
Theorem checks_reject_their_output (rif out : string) :
  rif <> "" ->
  VERIFField.checks (PyStr rif) = Ok (PyStr out) ->
  VERIFField.checks (PyStr out) = Raise (ValidationError "invalid").
Proof.
  intros Hne Hok.
  destruct (checks_accepted rif out Hne Hok)
    as (payload & cd & Hcanon & _ & ->).
  destruct (canon_joined rif payload cd Hcanon)
    as (first & digit & Hfirst & Hkey & ->).
  destruct (category_digit first digit Hkey) as (c & -> & Hc).
  destruct (Py.replace "-" "" rif) as [|a body]; [discriminate Hfirst|].
  cbn [Py.index] in Hfirst. injection Hfirst as ->.
  rewrite replace_hit, append_cons, append_nil_l.
  exact (leading_digit_invalid c _ Hc).
Qed.

Lemma checks_reject_their_output_witness :
  "v-12345678-1" <> ""
  /\ VERIFField.checks (PyStr "v-12345678-1") = Ok (PyStr "1123456781")
  /\ VERIFField.checks (PyStr "1123456781")
     = Raise (ValidationError "invalid").
Proof.
  split; [discriminate |]. split; [vm_compute; reflexivity |].
  apply (checks_reject_their_output "v-12345678-1" "1123456781");
    [discriminate | vm_compute; reflexivity].
Defined.

(** ** The national identity number, continued *)

Lemma sub_set_clean (cs s : string) :
  Py.all_chars (fun c => negb (Re.mem c cs)) (Re.sub_set cs "" s) = true.
Proof.
  induction s as [|c s IH]; cbn [Re.sub_set Py.all_chars]; [reflexivity|].
  destruct (Re.mem c cs) eqn:E.
  - rewrite append_nil_l. exact IH.
  - cbn [Py.all_chars]. rewrite E, IH. reflexivity.
Qed.

Lemma sub_set_idempotent (cs s : string) :
  Re.sub_set cs "" (Re.sub_set cs "" s) = Re.sub_set cs "" s.
Proof.
  apply (sub_set_absent (fun c => negb (Re.mem c cs))).
  - intros c H. apply negb_true_iff in H. exact H.
  - apply sub_set_clean.
Qed.

(** X16: when the national-ID field accepts text that is not empty, the
    result is the text without hyphens and periods, it is 7 or 8
    characters long and holds neither hyphen nor period, and validating
    the result again returns it unchanged. *)
Theorem dni_clean_idempotent (required : bool) (s out : string) :
  s <> "" ->
  validate VEDNIField.__init__ VEDNIField.clean required (PyStr s)
  = Ok (PyStr out) ->
  out = Re.sub_set "-." "" s
  /\ (Py.len out = 7%nat \/ Py.len out = 8%nat)
  /\ Py.all_chars (fun c => negb (Re.mem c "-.")) out = true
  /\ validate VEDNIField.__init__ VEDNIField.clean required (PyStr out)
     = Ok (PyStr out).
Proof.
  intros Hne. rewrite (dni_outcome required s Hne).
  destruct (10 <? Py.len s)%nat; [discriminate|].
  destruct (Py.len s <? 7)%nat; [discriminate|].
  destruct (int_accepts (Re.sub_set "-." "" s)) eqn:Hint; [|discriminate].
  destruct (in_tuple (Py.len (Re.sub_set "-." "" s)) [7%nat; 8%nat])
    eqn:Hlen; [|discriminate].
  intros H. injection H as <-.
  pose proof Hlen as Hlen'. apply in_tuple_7_8 in Hlen'.
  split; [reflexivity | split; [exact Hlen' | split; [apply sub_set_clean |]]].
  assert (Hout : Re.sub_set "-." "" s <> "").
  { intros E. rewrite E in Hlen'. cbn in Hlen'. lia. }
  rewrite (dni_outcome required _ Hout), sub_set_idempotent, Hint, Hlen.
  assert (H10 : (10 <? Py.len (Re.sub_set "-." "" s))%nat = false)
    by (apply Nat.ltb_ge; lia).
  assert (H7 : (Py.len (Re.sub_set "-." "" s) <? 7)%nat = false)
    by (apply Nat.ltb_ge; lia).
  rewrite H10, H7. reflexivity.
Qed.

Lemma dni_clean_idempotent_witness :
  "12.345.678" <> ""
  /\ validate VEDNIField.__init__ VEDNIField.clean true (PyStr "12.345.678")
     = Ok (PyStr "12345678")
  /\ validate VEDNIField.__init__ VEDNIField.clean true (PyStr "12345678")
     = Ok (PyStr "12345678").
Proof.
  split; [discriminate |]. split; [vm_compute; reflexivity |].
  apply (dni_clean_idempotent true "12.345.678" "12345678");
    [discriminate | vm_compute; reflexivity].
Defined.

(** ** The phone number *)

Lemma phone_outcome (required : bool) (s : string) :
  s <> "" ->
  validate VEPhoneField.__init__ VEPhoneField.clean required (PyStr s)
  = if (12 <? Py.len s)%nat then Raise (ValidationError "max_length")
    else if (Py.len s <? 12)%nat then Raise (ValidationError "min_length")
    else if Re.search VEPhoneField.pattern s then Ok PyNone
    else Raise (ValidationError "invalid").
Proof.
  intros Hne. unfold validate. rewrite VEPhoneField_init.
  cbn [mbind result_bind]. unfold VEPhoneField.clean.
  rewrite resolve_VEPhoneField. cbn [mbind result_bind].
  unfold super_clean. cbn [base]. unfold RegexField.clean.
  destruct s as [|c s]; [contradiction Hne; reflexivity|].
  rewrite CharField_clean_text. cbn [max_length min_length regex].
  destruct (12 <? Py.len (String c s))%nat eqn:Hmax; [reflexivity|].
  destruct (Py.len (String c s) <? 12)%nat eqn:Hmin; [reflexivity|].
  cbn [mbind result_bind].
  destruct (Re.search VEPhoneField.pattern (String c s));
    cbn [negb mbind result_bind]; [|reflexivity].
  apply Nat.ltb_ge in Hmax, Hmin.
  assert (Hlen : Py.len (String c s) = 12%nat) by lia.
  unfold VEPhoneField.checks. cbn [in_EMPTY_VALUES].
  rewrite Hlen. reflexivity.
Qed.

(** Twelve characters that the pattern accepts are four digits, a hyphen
    and seven digits, and the other way round. *)
Lemma phone_pattern_twelve (s : string) :
  Py.len s = 12%nat ->
  (Re.search VEPhoneField.pattern s = true
   <-> exists a b,
         s = a +:+ "-" +:+ b
         /\ Py.len a = 4%nat /\ Py.len b = 7%nat
         /\ Py.isdigit a = true /\ Py.isdigit b = true).
Proof.
  intros Hlen. unfold VEPhoneField.pattern. rewrite search_anchored.
  cbn [Re.m]. split.
  - intros H. invert_match; [| discriminate Hlen].
    eexists (String _ (String _ (String _ (String _ "")))),
            (String _ (String _ (String _ (String _
               (String _ (String _ (String _ ""))))))).
    split; [reflexivity |].
    split; [reflexivity | split; [reflexivity |]].
    split; cbn [Py.isdigit]; digits_done.
  - intros (a & b & -> & Ha & Hb & Hda & Hdb).
    destruct a as [|a1 [|a2 [|a3 [|a4 [|a5 a]]]]]; try discriminate Ha.
    destruct b as [|b1 [|b2 [|b3 [|b4 [|b5 [|b6 [|b7 [|b8 b]]]]]]]];
      try discriminate Hb.
    cbn [Py.isdigit Py.all_chars] in Hda, Hdb.
    repeat (apply andb_prop in Hda; destruct Hda as [? Hda]).
    repeat (apply andb_prop in Hdb; destruct Hdb as [? Hdb]).
    rewrite !append_cons, !append_nil_l.
    cbn [Re.step Re.at_end].
    repeat match goal with
      | H : Py.isdigit_char ?c = true |- context [Py.isdigit_char ?c] =>
          rewrite H
      end.
    reflexivity.
Qed.

(** X1: on text that is not empty the phone field succeeds if and only if
    the text is four digits, a hyphen and seven digits; any other text
    fails with a validation error: [max_length], [min_length] or
    [invalid]. *)
Theorem phone_accepts (required : bool) (s : string) :
  s <> "" ->
  (validate VEPhoneField.__init__ VEPhoneField.clean required (PyStr s)
   = Ok PyNone
   <-> exists a b,
         s = a +:+ "-" +:+ b
         /\ Py.len a = 4%nat /\ Py.len b = 7%nat
         /\ Py.isdigit a = true /\ Py.isdigit b = true)
  /\ (validate VEPhoneField.__init__ VEPhoneField.clean required (PyStr s)
      = Ok PyNone
      \/ exists code,
           In code ["max_length"; "min_length"; "invalid"]
           /\ validate VEPhoneField.__init__ VEPhoneField.clean required
                (PyStr s) = Raise (ValidationError code)).
Proof.
  intros Hne. rewrite (phone_outcome required s Hne).
  assert (Hshape : forall a b : string,
             s = a +:+ "-" +:+ b -> Py.len a = 4%nat -> Py.len b = 7%nat ->
             Py.len s = 12%nat).
  { intros a b -> Ha Hb. rewrite !len_append, Ha, Hb. reflexivity. }
  destruct (12 <? Py.len s)%nat eqn:Hmax.
  { apply Nat.ltb_lt in Hmax. split.
    - split; [discriminate |].
      intros (a & b & Hs & Ha & Hb & _). specialize (Hshape a b Hs Ha Hb). lia.
    - right. exists "max_length". split; [cbn; auto | reflexivity]. }
  apply Nat.ltb_ge in Hmax.
  destruct (Py.len s <? 12)%nat eqn:Hmin.
  { apply Nat.ltb_lt in Hmin. split.
    - split; [discriminate |].
      intros (a & b & Hs & Ha & Hb & _). specialize (Hshape a b Hs Ha Hb). lia.
    - right. exists "min_length". split; [cbn; auto | reflexivity]. }
  apply Nat.ltb_ge in Hmin.
  assert (Hlen : Py.len s = 12%nat) by lia.
  pose proof (phone_pattern_twelve s Hlen) as Hpat.
  destruct (Re.search VEPhoneField.pattern s) eqn:Hsearch.
  - split; [| left; reflexivity].
    split; [intros _; apply Hpat; reflexivity | reflexivity].
  - split.
    + split; [discriminate |].
      intros H. apply Hpat in H. discriminate H.
    + right. exists "invalid". split; [cbn; auto | reflexivity].
Qed.

Lemma phone_accepts_witness :
  "0412-1234567" <> ""
  /\ validate VEPhoneField.__init__ VEPhoneField.clean true
       (PyStr "0412-1234567") = Ok PyNone.
Proof.
  split; [discriminate |].
  apply (phone_accepts true "0412-1234567"); [discriminate |].
  exists "0412", "1234567". repeat split.
Defined.

(** ** Checks that never fire *)

(** X2: the [max_digits] error of the postal-code field and of the phone
    field is never raised: the base class has checked the length before
    the field's own length test runs. *)
Theorem max_digits_never_raised (required : bool) (v : value) :
  validate VEZipCodeField.__init__ VEZipCodeField.clean required v
  <> Raise (ValidationError "max_digits")
  /\ validate VEPhoneField.__init__ VEPhoneField.clean required v
     <> Raise (ValidationError "max_digits").
Proof.
  destruct v as [|[|c s]].
  - destruct required; split; vm_compute; discriminate.
  - destruct required; split; vm_compute; discriminate.
  - split.
    + rewrite (zip_outcome required (String c s)) by discriminate.
      repeat match goal with
             | |- context [if ?b then _ else _] => destruct b
             end; discriminate.
    + rewrite (phone_outcome required (String c s)) by discriminate.
      repeat match goal with
             | |- context [if ?b then _ else _] => destruct b
             end; discriminate.
Qed.

(** ** The choice fields *)

Lemma resolve_VERegionChoiceField :
  resolve "VERegionChoiceField" = Ok cls_VERegionChoiceField.
Proof. vm_compute. reflexivity. Qed.

Lemma resolve_VEStateChoiceField :
  resolve "VEStateChoiceField" = Ok cls_VEStateChoiceField.
Proof. vm_compute. reflexivity. Qed.

Lemma choice_super_init (c : class) (required : bool) :
  base c = Some cls_Field ->
  super_init c None ∅ required
  = Ok {| required := required; max_length := None;
          min_length := None; regex := None |}.
Proof.
  intros Hc. unfold super_init. rewrite Hc.
  destruct required; vm_compute; reflexivity.
Qed.

Lemma choice_keys (choices : list (string * string)) (s : string) :
  s ∈ (list_to_set
         (map (fun kv => smart_unicode (PyStr (fst kv))) choices) : gset string)
  <-> s ∈ map fst choices.
Proof.
  rewrite elem_of_list_to_set.
  rewrite (map_ext (fun kv => smart_unicode (PyStr (fst kv))) fst);
    [reflexivity | intros kv; reflexivity].
Qed.

Lemma region_outcome (choices : list (string * string)) (required : bool)
  (c : ascii) (s : string) :
  validate_choice VERegionChoiceField.__init__ VERegionChoiceField.clean
    choices required (PyStr (String c s))
  = if bool_decide (String c s ∈ map fst choices)
    then Ok (PyStr (String c s))
    else Raise (ValidationError "invalid").
Proof.
  unfold validate_choice, VERegionChoiceField.__init__.
  rewrite resolve_VERegionChoiceField. cbn [mbind result_bind].
  rewrite choice_super_init by reflexivity. cbn [mbind result_bind].
  unfold VERegionChoiceField.clean.
  rewrite resolve_VERegionChoiceField. cbn [mbind result_bind].
  unfold super_clean. cbn [base as_field widget_choices].
  unfold Field.clean. cbn [in_EMPTY_VALUES Django.required].
  rewrite andb_false_r. cbn [mbind result_bind in_EMPTY_VALUES smart_unicode].
  change (String.eqb (String c s) "") with false. cbv iota.
  rewrite (bool_decide_ext _ _ (choice_keys choices (String c s))).
  destruct (bool_decide (String c s ∈ map fst choices)); reflexivity.
Qed.

Lemma state_outcome (choices : list (string * string)) (required : bool)
  (c : ascii) (s : string) :
  validate_choice VEStateChoiceField.__init__ VEStateChoiceField.clean
    choices required (PyStr (String c s))
  = if bool_decide (String c s ∈ map fst choices)
    then Ok (PyStr (String c s))
    else Raise (ValidationError "invalid").
Proof.
  unfold validate_choice, VEStateChoiceField.__init__.
  rewrite resolve_VEStateChoiceField. cbn [mbind result_bind].
  rewrite choice_super_init by reflexivity. cbn [mbind result_bind].
  unfold VEStateChoiceField.clean.
  rewrite resolve_VEStateChoiceField. cbn [mbind result_bind].
  unfold super_clean. cbn [base as_field widget_choices].
  unfold Field.clean. cbn [in_EMPTY_VALUES Django.required].
  rewrite andb_false_r. cbn [mbind result_bind in_EMPTY_VALUES smart_unicode].
  change (String.eqb (String c s) "") with false. cbv iota.
  rewrite (bool_decide_ext _ _ (choice_keys choices (String c s))).
  destruct (bool_decide (String c s ∈ map fst choices)); reflexivity.
Qed.

(** X17: on text that is not empty the region field and the state field
    succeed, returning the text unchanged, if and only if the text is the
    key of one of the choices; any other text is rejected as invalid. *)
Theorem choice_fields_accept_keys (choices : list (string * string))
  (required : bool) (s : string) :
  s <> "" ->
  (validate_choice VERegionChoiceField.__init__ VERegionChoiceField.clean
     choices required (PyStr s) = Ok (PyStr s)
   <-> In s (map fst choices))
  /\ (validate_choice VEStateChoiceField.__init__ VEStateChoiceField.clean
        choices required (PyStr s) = Ok (PyStr s)
      <-> In s (map fst choices))
  /\ (~ In s (map fst choices) ->
      validate_choice VERegionChoiceField.__init__ VERegionChoiceField.clean
        choices required (PyStr s) = Raise (ValidationError "invalid")
      /\ validate_choice VEStateChoiceField.__init__ VEStateChoiceField.clean
           choices required (PyStr s) = Raise (ValidationError "invalid")).
Proof.
  intros Hne. destruct s as [|c s]; [contradiction Hne; reflexivity|].
  rewrite region_outcome, state_outcome.
  rewrite <- list_elem_of_In.
  destruct (bool_decide (String c s ∈ map fst choices)) eqn:Hkey.
  - apply bool_decide_eq_true in Hkey.
    split; [| split]; [tauto | tauto | intros H; contradiction (H Hkey)].
  - apply bool_decide_eq_false in Hkey.
    split; [| split].
    + split; [discriminate | intros H; contradiction (Hkey H)].
    + split; [discriminate | intros H; contradiction (Hkey H)].
    + intros _. split; reflexivity.
Qed.

Lemma choice_fields_accept_keys_witness :
  "ZU" <> ""
  /\ validate_choice VERegionChoiceField.__init__ VERegionChoiceField.clean
       [("DC", "Distrito Capital"); ("ZU", "Zulia")] true (PyStr "ZU")
     = Ok (PyStr "ZU").
Proof.
  split; [discriminate |].
  apply (choice_fields_accept_keys
           [("DC", "Distrito Capital"); ("ZU", "Zulia")] true "ZU");
    [discriminate | cbn; tauto].
Defined.

(** X18: an empty value ([None] or the empty text) given to the region
    field or the state field raises [required] when the field is required
    and returns the empty text when it is not, whatever the choices
    are. *)
Theorem choice_fields_empty_value (choices : list (string * string))
  (required : bool) (v : value) :
  in_EMPTY_VALUES v = true ->
  let outcome :=
    if required then Raise (ValidationError "required")
    else Ok (PyStr "") in
  validate_choice VERegionChoiceField.__init__ VERegionChoiceField.clean
    choices required v = outcome
  /\ validate_choice VEStateChoiceField.__init__ VEStateChoiceField.clean
       choices required v = outcome.
Proof.
  intros Hv. cbv zeta.
  unfold validate_choice, VERegionChoiceField.__init__,
    VEStateChoiceField.__init__.
  rewrite resolve_VERegionChoiceField, resolve_VEStateChoiceField.
  cbn [mbind result_bind].
  rewrite !choice_super_init by reflexivity. cbn [mbind result_bind].
  unfold VERegionChoiceField.clean, VEStateChoiceField.clean.
  rewrite resolve_VERegionChoiceField, resolve_VEStateChoiceField.
  cbn [mbind result_bind].
  unfold super_clean. cbn [base as_field]. unfold Field.clean.
  cbn [Django.required]. rewrite Hv.
  destruct required; cbn [andb mbind result_bind]; [split; reflexivity|].
  rewrite Hv. split; reflexivity.
Qed.

Lemma choice_fields_empty_value_witness :
  in_EMPTY_VALUES PyNone = true
  /\ validate_choice VERegionChoiceField.__init__ VERegionChoiceField.clean
       [("DC", "Distrito Capital")] false PyNone = Ok (PyStr "")
  /\ validate_choice VEStateChoiceField.__init__ VEStateChoiceField.clean
       [("DC", "Distrito Capital")] false PyNone = Ok (PyStr "").
Proof.
  split; [reflexivity |].
  apply (choice_fields_empty_value [("DC", "Distrito Capital")] false PyNone).
  reflexivity.
Defined.

Lemma empty_value_outcome_witness :
  in_EMPTY_VALUES (PyStr "") = true
  /\ validate VEZipCodeField.__init__ VEZipCodeField.clean false (PyStr "")
     = Ok (PyStr "")
  /\ validate VEDNIField.__init__ VEDNIField.clean false (PyStr "")
     = Ok (PyStr "")
  /\ validate VEPhoneField.__init__ VEPhoneField.clean false (PyStr "")
     = Ok (PyStr "").
Proof.
  split; [reflexivity |].
  apply (empty_value_outcome false (PyStr "")). reflexivity.
Defined.
